(** * pull_hf_daily: a shallow embedding of [scripts/pull_hf_daily.py]

    The script retrieves the daily listing page of Hugging Face papers,
    visits the detail page of every article, assembles one record per new
    arXiv identifier, downloads the PDFs through a thread pool, prunes the
    records whose download failed and dumps the survivors into a dated JSON
    file.

    Python values are modelled as follows: a [str] is the [string] of its
    UTF-8 encoding, the dictionaries built at line 117 are records, the
    set [seen_ids] is a [gset string], the files written by [json.dump] are
    a [gmap] from paths to the dumped list.  Calls into the network, the
    clock and the thread pool are answered by an explicit environment
    ([World]), which also holds the interpreter's table of decimal digits;
    Python exceptions are values of [exn] threaded through a small
    state-and-exception monad.  Calls to [print] only write to standard
    output and are left out. *)

From Stdlib Require Import Ascii String.
From stdpp Require Import gmap strings list.

Local Open Scope string_scope.
Local Open Scope list_scope.

(** ** Characters

    A [str] is a sequence of code points; a [string] holds its UTF-8
    encoding.  [next s] decodes the first character of [s]: its code point,
    its bytes, and the rest of [s]. *)

Module utf8.

(** The payload of a continuation byte [10xxxxxx]. *)
Definition continuation (b : ascii) : option N :=
  let n := N_of_ascii b in
  if ((128 <=? n) && (n <? 192))%N then Some (n - 128)%N else None.

(** A code point that an encoding of its length may carry: not below [lo],
    no surrogate, at most U+10FFFF. *)
Definition scalar (lo c : N) : bool :=
  ((lo <=? c) && (c <? 1114112) && negb ((55296 <=? c) && (c <? 57344)))%N.

Definition next (s : string) : option (N * string * string) :=
  match s with
  | EmptyString => None
  | String b0 s1 =>
      let n0 := N_of_ascii b0 in
      if (n0 <? 128)%N then Some (n0, String b0 "", s1) else
      if (n0 <? 192)%N then None else
      match s1 with
      | EmptyString => None
      | String b1 s2 =>
          match continuation b1 with
          | None => None
          | Some n1 =>
              if (n0 <? 224)%N then
                let c := ((n0 - 192) * 64 + n1)%N in
                if scalar 128 c then Some (c, String b0 (String b1 ""), s2) else None
              else
              match s2 with
              | EmptyString => None
              | String b2 s3 =>
                  match continuation b2 with
                  | None => None
                  | Some n2 =>
                      if (n0 <? 240)%N then
                        let c := (((n0 - 224) * 64 + n1) * 64 + n2)%N in
                        if scalar 2048 c
                        then Some (c, String b0 (String b1 (String b2 "")), s3) else None
                      else
                      match s3 with
                      | EmptyString => None
                      | String b3 s4 =>
                          match continuation b3 with
                          | None => None
                          | Some n3 =>
                              let c := ((((n0 - 240) * 64 + n1) * 64 + n2) * 64 + n3)%N in
                              if (n0 <? 248)%N && scalar 65536 c
                              then Some (c, String b0 (String b1 (String b2 (String b3 ""))), s4)
                              else None
                          end
                      end
                  end
              end
          end
      end
  end.

End utf8.

(** ** A fragment of Python's [re] module

    Patterns are restricted to what [r"/papers/(\d+\.\d+)"] needs: literal
    text, a greedy [c+] over a class of characters, concatenation and
    capturing groups.  Matching is by backtracking, alternatives being
    explored in the order of the [re] module (longest repetition first). *)

Module re.

Inductive pattern : Type :=
| Lit (s : string)
| Plus (cls : N → bool)
| Cat (p q : pattern)
| Group (p : pattern).

(** [startswith l s] is the rest of [s] after the prefix [l], if any. *)
Fixpoint startswith (l s : string) : option string :=
  match l, s with
  | EmptyString, _ => Some s
  | String a l', String b s' => if Ascii.eqb a b then startswith l' s' else None
  | String _ _, EmptyString => None
  end.

(** One way of matching a prefix of the subject: the text consumed, the
    texts of the groups closed on the way (outermost first), and the rest
    of the subject. *)
Record way : Type := Way { consumed : string; captures : list string; rest : string }.

Definition shift (tok : string) (w : way) : way :=
  Way (tok +:+ consumed w) (captures w) (rest w).

(** All the ways of [cls+] on [s], the greedy one first; [n] bounds the
    number of characters read. *)
Fixpoint plus_ways_upto (n : nat) (cls : N → bool) (s : string) : list way :=
  match n with
  | O => []
  | S n' =>
      match utf8.next s with
      | Some (c, tok, r) =>
          if cls c then (shift tok <$> plus_ways_upto n' cls r) ++ [Way tok [] r]
          else []
      | None => []
      end
  end.

(** A string has no more characters than bytes. *)
Definition plus_ways (cls : N → bool) (s : string) : list way :=
  plus_ways_upto (String.length s) cls s.

(** All the ways of a pattern on [s], in backtracking order. *)
Fixpoint ways (p : pattern) (s : string) : list way :=
  match p with
  | Lit l =>
      match startswith l s with
      | Some r => [Way l [] r]
      | None => []
      end
  | Plus cls => plus_ways cls s
  | Cat p q =>
      w1 ← ways p s;
      w2 ← ways q (rest w1);
      [Way (consumed w1 +:+ consumed w2) (captures w1 ++ captures w2) (rest w2)]
  | Group p =>
      (λ w, Way (consumed w) (consumed w :: captures w) (rest w)) <$> ways p s
  end.

(** A match object: the whole match and the numbered groups. *)
Record Match : Type := { group0 : string; groups : list string }.

(** [re.match]: the first way of the pattern at the start of [s]. *)
Definition match_ (p : pattern) (s : string) : option Match :=
  (λ w, {| group0 := consumed w; groups := captures w |}) <$> head (ways p s).

(** [re.search]: the match at the leftmost offset that has one.  Offsets
    are tried byte by byte; a pattern that starts with an ASCII literal
    cannot match inside a character. *)
Fixpoint search (p : pattern) (s : string) : option Match :=
  match match_ p s with
  | Some m => Some m
  | None =>
      match s with
      | String _ s' => search p s'
      | EmptyString => None
      end
  end.

(** [m.group(n)] for [n >= 1]; [None] stands for the [IndexError] raised
    when the pattern has no such group. *)
Definition group (m : Match) (n : nat) : option string :=
  match n with
  | O => Some (group0 m)
  | S k => groups m !! k
  end.

End re.

(** ** Python values *)

(** The dictionary appended to [papers] at lines 117-126. *)
Record Paper : Type := {
  title : string;
  arxiv_id : string;
  arxiv_link : string;
  hf_link : string;
  pdf_path : string;
  abstract : string;
}.

Global Instance Paper_eq_dec : EqDecision Paper.
Proof. solve_decision. Defined.

(** The exceptions that the script can meet. *)
Inductive exn : Type :=
| AttributeError   (* attribute access on [None] *)
| TypeError        (* [str + None] *)
| IndexError       (* [group(n)] without such a group *)
| HTTPError        (* [raise_for_status] *)
| ConnectionError
| Timeout
| IOError
| OtherException.

Global Instance exn_eq_dec : EqDecision exn.
Proof. solve_decision. Defined.

(** A BeautifulSoup tag, reduced to its attributes and its text. *)
Record Tag : Type := { attrs : gmap string string; text : string }.

(** An [<article>] element of the listing page: [paper.a] is its first
    anchor, or [None]. *)
Record Article : Type := { a_ : option Tag }.

(** A parsed page, observed through the three queries the script makes. *)
Record Soup : Type := {
  find_all_article : list Article;   (* soup.find_all("article") *)
  find_h1 : option Tag;              (* soup.find("h1", class_="mb-2 text-2xl ...") *)
  find_p : option Tag;               (* soup.find("p", class_="text-gray-600") *)
}.

Record Response : Type := { status_code : Z; soup : Soup }.

(** What a call of [requests.get] does: it returns a response or raises. *)
Inductive reply : Type :=
| Returns (r : Response)
| Raises (e : exn).

(** ** Dates *)

Record datetime : Type := { year : Z; month : Z; day : Z }.

Definition is_leap (y : Z) : bool :=
  ((y mod 4 =? 0) && negb (y mod 100 =? 0) || (y mod 400 =? 0))%Z.

Definition days_in_month (y m : Z) : Z :=
  if (m =? 2)%Z then (if is_leap y then 29 else 28)%Z
  else if ((m =? 4) || (m =? 6) || (m =? 9) || (m =? 11))%Z then 30%Z
  else 31%Z.

(** [d - timedelta(days=1)] *)
Definition minus_one_day (d : datetime) : datetime :=
  if (1 <? day d)%Z then {| year := year d; month := month d; day := day d - 1 |}
  else if (1 <? month d)%Z then
    {| year := year d; month := month d - 1; day := days_in_month (year d) (month d - 1) |}
  else {| year := year d - 1; month := 12; day := 31 |}.

Definition decimal_digit (n : Z) : ascii := ascii_of_nat (48 + Z.to_nat (n mod 10)).

Definition two_digits (n : Z) : string :=
  String (decimal_digit (n / 10)) (String (decimal_digit n) "").

Definition four_digits (n : Z) : string :=
  two_digits (n / 100) +:+ two_digits n.

(** [d.strftime("%Y-%m-%d")] *)
Definition strftime_Ymd (d : datetime) : string :=
  four_digits (year d) +:+ "-" +:+ two_digits (month d) +:+ "-" +:+ two_digits (day d).

(** ** The environment *)

(** Everything the run reads from outside.  Requests of the main thread are
    numbered in the order they are made, so that the same URL may be
    answered differently at different times; download tasks are numbered in
    submission order. *)
Record World : Type := {
  now_first : datetime;                      (* clock read at line 22 *)
  now_last : datetime;                       (* clock read at line 138 *)
  requests_get : nat → string → reply;       (* n-th request of the main thread *)
  pdf_get : nat → string → reply;            (* the request of download task n *)
  pdf_write : nat → string → option exn;     (* [open] and [write] of download task n *)
  as_completed : list nat;                   (* order in which futures are yielded *)
  unicode_decimal : N → bool;                (* the decimal digits beyond ASCII of the
                                                interpreter's Unicode database *)
}.

(** The class [\d] of a [str] pattern: the decimal digits, which are [0] to
    [9] in ASCII and, beyond, those of the Unicode database that the
    interpreter was built with. *)
Definition digit (w : World) (c : N) : bool :=
  if (c <? 128)%N then ((48 <=? c) && (c <=? 57))%N else unicode_decimal w c.

(** The pattern of line 100, [r"/papers/(\d+\.\d+)"]. *)
Definition arxiv_id_pattern (w : World) : re.pattern :=
  re.Cat (re.Lit "/papers/")
         (re.Group (re.Cat (re.Plus (digit w)) (re.Cat (re.Lit ".") (re.Plus (digit w))))).

(** Line 100: [re.search(r"/papers/(\d+\.\d+)", link)]. *)
Definition arxiv_id_match (w : World) (link : string) : option re.Match :=
  re.search (arxiv_id_pattern w) link.

(** ** Effects

    What the run leaves behind: the requests of the main thread, the
    directories it made sure of, the download tasks handed to the executor
    (document link and destination) and the JSON files on disk, each mapped
    to the list that [json.dump] serialised into it.  The PDF bytes themselves are
    not tracked, and the file-system calls of the main thread are taken to
    succeed. *)
Record State : Type := {
  requested : list string;
  made_dirs : list string;
  submitted : list (string * string);
  files : gmap string (list Paper);
}.

Definition M (A : Type) : Type := State → (exn + A) * State.

Global Instance M_ret : MRet M := λ A x st, (inr x, st).
Global Instance M_bind : MBind M := λ A B f m st,
  match m st with
  | (inl e, st') => (inl e, st')
  | (inr x, st') => f x st'
  end.

Definition raise {A : Type} (e : exn) : M A := λ st, (inl e, st).

(** Attribute access on what may be [None]. *)
Definition getattr {A : Type} (o : option A) : M A :=
  match o with
  | Some x => mret x
  | None => raise AttributeError
  end.

(** The four ways in which the run changes the state. *)
Definition requesting (url : string) (st : State) : State :=
  {| requested := requested st ++ [url]; made_dirs := made_dirs st;
     submitted := submitted st; files := files st |}.

Definition making (dir : string) (st : State) : State :=
  {| requested := requested st; made_dirs := made_dirs st ++ [dir];
     submitted := submitted st; files := files st |}.

Definition submitting (tasks : list (string * string)) (st : State) : State :=
  {| requested := requested st; made_dirs := made_dirs st;
     submitted := submitted st ++ tasks; files := files st |}.

Definition writing (path : string) (papers : list Paper) (st : State) : State :=
  {| requested := requested st; made_dirs := made_dirs st;
     submitted := submitted st; files := <[path := papers]> (files st) |}.

(** [requests.get(url, timeout=60)] in the main thread. *)
Definition get (w : World) (url : string) : M Response := λ st,
  match requests_get w (length (requested st)) url with
  | Returns r => (inr r, requesting url st)
  | Raises e => (inl e, requesting url st)
  end.

(** [os.makedirs(dir, exist_ok=True)] *)
Definition makedirs (dir : string) : M unit := λ st, (inr (), making dir st).

(** [executor.submit(download_pdf, link, path)] for each record. *)
Definition submit (tasks : list (string * string)) : M unit := λ st,
  (inr (), submitting tasks st).

(** [with open(path, "w") as f: json.dump(papers, f, indent=2)] *)
Definition dump (path : string) (papers : list Paper) : M unit := λ st,
  (inr (), writing path papers st).

(** [os.path.join(a, b)] on a POSIX system. *)
Definition os_path_join (a b : string) : string :=
  match b with
  | String "/" _ => b
  | _ =>
      match a with
      | EmptyString => b
      | _ => if bool_decide (re.startswith "/" (String.rev a) = None)
             then a +:+ "/" +:+ b else a +:+ b
      end
  end.

(** ** The script *)

Definition HF_BASE_URL : string := "https://huggingface.co".
Definition HF_PAPERS_URL : string := "https://huggingface.co/papers/date".

(** Lines 21-25. *)
Definition get_previous_weekday (w : World) : string :=
  let today := now_first w in
  let previous_day := minus_one_day today in
  strftime_Ymd previous_day.

(** [response.raise_for_status()] raises for the statuses 400 to 599. *)
Definition raise_for_status (response : Response) : option exn :=
  if bool_decide (400 ≤ status_code response < 600)%Z then Some HTTPError else None.

(** Lines 27-60, as run by download task [n]: every exception is caught and
    turned into [(arxiv_link, False)]. *)
Definition download_pdf (w : World) (n : nat) (arxiv_link save_path : string) : string * bool :=
  match pdf_get w n arxiv_link with
  | Raises _ => (arxiv_link, false)
  | Returns response =>
      match raise_for_status response with
      | Some _ => (arxiv_link, false)
      | None =>
          match pdf_write w n save_path with
          | Some _ => (arxiv_link, false)
          | None => (arxiv_link, true)
          end
      end
  end.

(** [s.replace("\n ", "")] *)
Fixpoint replace_newline_space (s : string) : string :=
  match s with
  | String "010" (String " " s') => replace_newline_space s'
  | String c s' => String c (replace_newline_space s')
  | EmptyString => EmptyString
  end.

(** The local variables that the loop of lines 88-126 updates. *)
Record Locals : Type := { papers : list Paper; seen_ids : gset string }.

(** Lines 100-105, the key extractor: the identifier found in the link, or
    [None] when the pattern does not occur. *)
Definition extract_arxiv_id (w : World) (link : string) : M (option string) :=
  match arxiv_id_match w link with
  | Some m =>
      arxiv_id ← from_option mret (raise IndexError) (re.group m 1);
      mret (Some arxiv_id)
  | None => mret None
  end.

(** What lines 89-105 hand over to the rest of the loop body. *)
Record Scraped : Type := {
  scraped_title : string;
  scraped_abstract : string;
  scraped_arxiv_id : string;
  scraped_hf_paper_url : string;
}.

(** Lines 89-105: from the article to its title, abstract and identifier.
    [None] is one of the two [continue] of these lines. *)
Definition scrape (w : World) (paper : Article) : M (option Scraped) :=
  a ← getattr (a_ paper);                      (* paper.a.get *)
  match attrs a !! "href" with
  | None => raise TypeError                    (* HF_BASE_URL + None *)
  | Some link =>
      let hf_paper_url := HF_BASE_URL +:+ link in
      content ← get w hf_paper_url;
      if negb (status_code content =? 200)%Z then mret None else
      h1 ← getattr (find_h1 (soup content));
      let title := replace_newline_space (text h1) in
      p ← getattr (find_p (soup content));
      let abstract := text p in
      found ← extract_arxiv_id w link;
      match found with
      | None => mret None
      | Some arxiv_id =>
          mret (Some {| scraped_title := title; scraped_abstract := abstract;
                        scraped_arxiv_id := arxiv_id;
                        scraped_hf_paper_url := hf_paper_url |})
      end
  end.

(** The record built at lines 113-126. *)
Definition make_paper (s : Scraped) : Paper :=
  let arxiv_id := scraped_arxiv_id s in
  let arxiv_link := "https://arxiv.org/pdf/" +:+ arxiv_id in
  let pdf_path := os_path_join "temp_pdfs" (arxiv_id +:+ ".pdf") in
  {| title := scraped_title s; arxiv_id := arxiv_id; arxiv_link := arxiv_link;
     hf_link := scraped_hf_paper_url s; pdf_path := pdf_path;
     abstract := scraped_abstract s |}.

(** Lines 107-126: the duplicate check and the insertion. *)
Definition keep (loc : Locals) (s : Scraped) : Locals :=
  if bool_decide (scraped_arxiv_id s ∈ seen_ids loc) then loc
  else {| papers := papers loc ++ [make_paper s];
          seen_ids := {[ scraped_arxiv_id s ]} ∪ seen_ids loc |}.

(** Lines 107-126 when lines 89-105 did not [continue]. *)
Definition keep_if_any (loc : Locals) (s : option Scraped) : Locals :=
  match s with
  | Some s => keep loc s
  | None => loc        (* continue *)
  end.

(** Lines 89-126: one turn of the loop.  Returning the locals unchanged is
    [continue]. *)
Definition visit (w : World) (loc : Locals) (paper : Article) : M Locals :=
  s ← scrape w paper;
  mret (keep_if_any loc s).

(** The locals at the start of the loop (lines 80-81). *)
Definition no_papers : Locals := {| papers := []; seen_ids := ∅ |}.

(** Lines 88-126: the loop; an exception ends it. *)
Fixpoint harvest (w : World) (loc : Locals) (today_papers_list : list Article) : M Locals :=
  match today_papers_list with
  | [] => mret loc
  | paper :: rest => loc' ← visit w loc paper; harvest w loc' rest
  end.

(** Lines 131-136: what the caller does with the result of one future. *)
Definition prune (papers : list Paper) (result : string * bool) : list Paper :=
  let '(arxiv_link_, success) := result in
  if success then papers
  else filter (λ paper, arxiv_link paper ≠ arxiv_link_) papers.

(** Lines 128-136: one task per record, submitted in the order of [papers];
    the results are consumed in the order in which the futures complete. *)
Definition download_all (w : World) (papers : list Paper) : M (list Paper) :=
  let futures := imap (λ n paper, download_pdf w n (arxiv_link paper) (pdf_path paper)) papers in
  _ ← submit ((λ paper, (arxiv_link paper, pdf_path paper)) <$> papers);
  mret (foldl prune papers (omap (λ n, futures !! n) (as_completed w))).

(** Lines 63-147. *)
Definition pull_hf_daily (w : World) (date : option string) : M unit :=
  let date := match date with None => get_previous_weekday w | Some d => d end in
  let hf_papers_url := HF_PAPERS_URL +:+ "/" +:+ date in
  response ← get w hf_papers_url;
  if negb (status_code response =? 200)%Z then mret () else
  let today_papers_list := find_all_article (soup response) in
  let temp_pdf_dir := "temp_pdfs" in
  _ ← makedirs temp_pdf_dir;
  loc ← harvest w no_papers today_papers_list;
  papers ← download_all w (papers loc);
  let date := strftime_Ymd (now_last w) in
  let data_dir := "data" in
  _ ← makedirs data_dir;
  let data_file_path := os_path_join data_dir (date +:+ "_papers.json") in
  dump data_file_path papers.

(** Lines 149-153. *)
Definition main (w : World) : M unit :=
  let date := get_previous_weekday w in
  pull_hf_daily w (Some date).

(** The state before a run: nothing requested, a given file system. *)
Definition initial (fs : gmap string (list Paper)) : State :=
  {| requested := []; made_dirs := []; submitted := []; files := fs |}.

(** ** Notions used in the statements *)

(** The first character of [s] is in the class. *)
Definition begins (cls : N → bool) (s : string) : bool :=
  match utf8.next s with
  | Some (c, _, _) => cls c
  | None => false
  end.

(** The longest prefix of [s] made of characters of the class, and what
    follows it; [n] bounds the number of characters read. *)
Fixpoint span_upto (n : nat) (cls : N → bool) (s : string) : string * string :=
  match n with
  | O => ("", s)
  | S n' =>
      match utf8.next s with
      | Some (c, tok, r) =>
          if cls c then (tok +:+ (span_upto n' cls r).1, (span_upto n' cls r).2)
          else ("", s)
      | None => ("", s)
      end
  end.

Definition span (cls : N → bool) (s : string) : string * string :=
  span_upto (String.length s) cls s.

(** [s] is made of characters of the class: its longest such prefix is
    [s] itself. *)
Definition all (cls : N → bool) (s : string) : bool :=
  bool_decide ((span cls s).1 = s).

(** [link] reads [pre], then [/papers/], then the digits [d1], a dot, the
    digits [d2], then [post]. *)
Definition occurrence (w : World) (link pre d1 d2 post : string) : Prop :=
  link = pre +:+ "/papers/" +:+ d1 +:+ "." +:+ d2 +:+ post ∧
  d1 ≠ "" ∧ d2 ≠ "" ∧ all (digit w) d1 = true ∧ all (digit w) d2 = true.

(** The occurrence that starts first, with all the digits that follow the
    dot. *)
Definition first_occurrence (w : World) (link pre d1 d2 post : string) : Prop :=
  occurrence w link pre d1 d2 post ∧
  begins (digit w) post = false ∧
  ∀ pre' d1' d2' post',
    occurrence w link pre' d1' d2' post' → (String.length pre ≤ String.length pre')%nat.

(** The tail [\.\d+] of the pattern. *)
Definition dot_digits (w : World) : re.pattern := re.Cat (re.Lit ".") (re.Plus (digit w)).

(** The identifier at the start of [s], computed without backtracking. *)
Definition scan_id (w : World) (s : string) : option string :=
  r ← re.startswith "/papers/" s;
  let d1 := (span (digit w) r).1 in
  if bool_decide (d1 = "") then None else
  r2 ← re.startswith "." (span (digit w) r).2;
  let d2 := (span (digit w) r2).1 in
  if bool_decide (d2 = "") then None else Some (d1 +:+ "." +:+ d2).

(** Lines 89-105 run on each article in turn. *)
Fixpoint scrape_all (w : World) (today_papers_list : list Article) : M (list (option Scraped)) :=
  match today_papers_list with
  | [] => mret []
  | paper :: rest => s ← scrape w paper; ss ← scrape_all w rest; mret (s :: ss)
  end.

(** The duplicate check is sound when the seen set holds the identifiers of
    the records, and these are pairwise distinct. *)
Definition consistent (loc : Locals) : Prop :=
  NoDup (arxiv_id <$> papers loc) ∧
  ∀ id, id ∈ seen_ids loc ↔ id ∈ arxiv_id <$> papers loc.

(** The records of a list that carry the identifier [id]. *)
Definition with_id (id : string) (l : list Paper) : list Paper :=
  filter (λ paper, arxiv_id paper = id) l.

(** The listing URL of line 70. *)
Definition hf_papers_url (w : World) (date : option string) : string :=
  HF_PAPERS_URL +:+ "/" +:+ match date with None => get_previous_weekday w | Some d => d end.

(** The state in which the loop of line 88 starts, after the listing was
    retrieved from a fresh state and [temp_pdfs] was made sure of. *)
Definition listed (w : World) (date : option string) (fs : gmap string (list Paper)) : State :=
  making "temp_pdfs" (requesting (hf_papers_url w date) (initial fs)).

(** The path of line 142 on the day [d]. *)
Definition data_file_path (d : datetime) : string :=
  "data/" +:+ strftime_Ymd d +:+ "_papers.json".

(** ** Concrete pages and worlds *)

Definition anchor (href : string) : Article :=
  {| a_ := Some {| attrs := {[ "href" := href ]}; text := "" |} |}.

Definition listing_page (articles : list Article) : Response :=
  {| status_code := 200;
     soup := {| find_all_article := articles; find_h1 := None; find_p := None |} |}.

Definition detail_page (title abstract : string) : Response :=
  {| status_code := 200;
     soup := {| find_all_article := [];
                find_h1 := Some {| attrs := ∅; text := title |};
                find_p := Some {| attrs := ∅; text := abstract |} |} |}.

Definition status_page (code : Z) : Response :=
  {| status_code := code;
     soup := {| find_all_article := []; find_h1 := None; find_p := None |} |}.

(** The decimal digits of Unicode 14.0, the database of CPython 3.11: the
    code points of general category Nd come in runs of ten, listed here by
    their zero. *)
Definition unicode_14_zeros : list N :=
  [1632; 1776; 1984; 2406; 2534; 2662; 2790; 2918; 3046; 3174;
   3302; 3430; 3558; 3664; 3792; 3872; 4160; 4240; 6112; 6160;
   6470; 6608; 6784; 6800; 6992; 7088; 7232; 7248; 42528; 43216;
   43264; 43472; 43504; 43600; 44016; 65296; 66720; 68912; 69734; 69872;
   69942; 70096; 70384; 70736; 70864; 71248; 71360; 71472; 71904; 72016;
   72784; 73040; 73120; 92768; 92864; 93008; 120782; 120792; 120802; 120812;
   120822; 123200; 123632; 125264; 130032]%N.

Definition unicode_14 (c : N) : bool :=
  existsb (λ zero, (zero <=? c) && (c <? zero + 10))%N unicode_14_zeros.

Definition jan_16 : datetime := {| year := 2024; month := 1; day := 16 |}.

(** Three articles, the third repeating the first; the PDF of the first is
    downloaded, that of the second is not found; the second download
    completes first. *)
Definition three_articles : World := {|
  now_first := jan_16;
  now_last := jan_16;
  requests_get := λ n url,
    match n with
    | 0 => Returns (listing_page [anchor "/papers/2401.00001"; anchor "/papers/2401.00002";
                                  anchor "/papers/2401.00001"])
    | 1 => Returns (detail_page "First" "A1")
    | 2 => Returns (detail_page "Second" "A2")
    | _ => Returns (detail_page "First again" "A3")
    end;
  pdf_get := λ n url, match n with 0 => Returns (status_page 200) | _ => Returns (status_page 404) end;
  pdf_write := λ _ _, None;
  as_completed := [1; 0];
  unicode_decimal := unicode_14;
|}.

(** The listing endpoint answers 500. *)
Definition listing_down : World := {|
  now_first := jan_16;
  now_last := jan_16;
  requests_get := λ n url, Returns (status_page 500);
  pdf_get := λ n url, Returns (status_page 200);
  pdf_write := λ _ _, None;
  as_completed := [];
  unicode_decimal := unicode_14;
|}.

(** Two articles; the detail page of the first comes back with status 200
    but has neither the heading nor the paragraph. *)
Definition bare_detail : World := {|
  now_first := jan_16;
  now_last := jan_16;
  requests_get := λ n url,
    match n with
    | 0 => Returns (listing_page [anchor "/papers/2401.00001"; anchor "/papers/2401.00002"])
    | 1 => Returns (status_page 200)
    | _ => Returns (detail_page "Second" "A2")
    end;
  pdf_get := λ n url, Returns (status_page 200);
  pdf_write := λ _ _, None;
  as_completed := [0];
  unicode_decimal := unicode_14;
|}.

(** Three articles; the second has an anchor without [href]. *)
Definition bare_anchor : World := {|
  now_first := jan_16;
  now_last := jan_16;
  requests_get := λ n url,
    match n with
    | 0 => Returns (listing_page [anchor "/papers/2401.00001";
                                  {| a_ := Some {| attrs := ∅; text := "" |} |};
                                  anchor "/papers/2401.00003"])
    | _ => Returns (detail_page "Some title" "Some abstract")
    end;
  pdf_get := λ n url, Returns (status_page 200);
  pdf_write := λ _ _, None;
  as_completed := [0; 1];
  unicode_decimal := unicode_14;
|}.

(** A link that carries no identifier, on an otherwise well-formed page. *)
Definition no_identifier : World := {|
  now_first := jan_16;
  now_last := jan_16;
  requests_get := λ n url,
    match n with
    | 0 => Returns (listing_page [anchor "/papers/trending"; anchor "/papers/2401.00002"])
    | _ => Returns (detail_page "Some title" "Some abstract")
    end;
  pdf_get := λ n url, Returns (status_page 200);
  pdf_write := λ _ _, None;
  as_completed := [0];
  unicode_decimal := unicode_14;
|}.

(** The listing request finds no connection. *)
Definition listing_unreachable : World := {|
  now_first := jan_16;
  now_last := jan_16;
  requests_get := λ n url, Raises ConnectionError;
  pdf_get := λ n url, Returns (status_page 200);
  pdf_write := λ _ _, None;
  as_completed := [];
  unicode_decimal := unicode_14;
|}.

(** The request for the detail page of the first article times out. *)
Definition detail_timeout : World := {|
  now_first := jan_16;
  now_last := jan_16;
  requests_get := λ n url,
    match n with
    | 0 => Returns (listing_page [anchor "/papers/2401.00001"; anchor "/papers/2401.00002"])
    | 1 => Raises Timeout
    | _ => Returns (detail_page "Second" "A2")
    end;
  pdf_get := λ n url, Returns (status_page 200);
  pdf_write := λ _ _, None;
  as_completed := [0];
  unicode_decimal := unicode_14;
|}.

(** The detail page of the first article is answered 404. *)
Definition detail_not_found : World := {|
  now_first := jan_16;
  now_last := jan_16;
  requests_get := λ n url,
    match n with
    | 0 => Returns (listing_page [anchor "/papers/2401.00001"; anchor "/papers/2401.00002"])
    | 1 => Returns (status_page 404)
    | _ => Returns (detail_page "Second" "A2")
    end;
  pdf_get := λ n url, Returns (status_page 200);
  pdf_write := λ _ _, None;
  as_completed := [0];
  unicode_decimal := unicode_14;
|}.

(** A listing without articles. *)
Definition empty_listing : World := {|
  now_first := jan_16;
  now_last := jan_16;
  requests_get := λ n url, Returns (listing_page []);
  pdf_get := λ n url, Returns (status_page 200);
  pdf_write := λ _ _, None;
  as_completed := [];
  unicode_decimal := unicode_14;
|}.

(** The link of an article, when it has one. *)
Definition href (paper : Article) : option string :=
  a ← a_ paper; attrs a !! "href".

(** An identifier: digits, a dot, digits. *)
Definition dotted_digits (w : World) (id : string) : Prop :=
  ∃ d1 d2, id = d1 +:+ "." +:+ d2 ∧ d1 ≠ "" ∧ d2 ≠ "" ∧
           all (digit w) d1 = true ∧ all (digit w) d2 = true.

(** [three_articles], the futures completing in submission order. *)
Definition three_articles_in_order : World := {|
  now_first := now_first three_articles;
  now_last := now_last three_articles;
  requests_get := requests_get three_articles;
  pdf_get := pdf_get three_articles;
  pdf_write := pdf_write three_articles;
  as_completed := [0; 1];
  unicode_decimal := unicode_decimal three_articles;
|}.

(** * summarize_papers: a shallow embedding of [scripts/summarize_papers.py]

    The second script loads the records persisted by the first one on the
    same day, asks the Gemini API for a summary of each paper, writes the
    summaries into an archive file, rebuilds [README.md] and removes the
    downloaded PDFs. *)

(** ** A fragment of Python's [str] methods *)

Module str.

(** A line break. *)
Definition LF : string := String "010" "".

(** [s.replace("", new)] without its leading [new]: [new] after every
    character; [n] bounds the number of characters read. *)
Fixpoint intersperse_upto (n : nat) (new s : string) : string :=
  match n with
  | O => EmptyString
  | S n' =>
      match utf8.next s with
      | Some (_, tok, r) => tok +:+ new +:+ intersperse_upto n' new r
      | None => s
      end
  end.

Definition intersperse (new s : string) : string :=
  intersperse_upto (String.length s) new s.

(** [s.replace(old, new)] for a non-empty [old], scanning from the left;
    [skip] is the number of bytes of a replaced occurrence still to be
    passed over.  An occurrence of well-formed text in well-formed text
    starts and ends between characters, so that bytes may be scanned. *)
Fixpoint replace_from (old new : string) (skip : nat) (s : string) : string :=
  match s with
  | EmptyString => EmptyString
  | String c s' =>
      match skip with
      | S k => replace_from old new k s'
      | O =>
          match re.startswith old s with
          | Some _ => new +:+ replace_from old new (String.length old - 1) s'
          | None => String c (replace_from old new 0 s')
          end
      end
  end.

(** [s.replace(old, new)] *)
Definition replace (old new s : string) : string :=
  match old with
  | EmptyString => new +:+ intersperse new s
  | String _ _ => replace_from old new 0 s
  end.

(** [s.split(sep)] for a non-empty [sep]; [cur] is the part being read. *)
Fixpoint split_from (sep : string) (skip : nat) (cur s : string) : list string :=
  match s with
  | EmptyString => [cur]
  | String c s' =>
      match skip with
      | S k => split_from sep k cur s'
      | O =>
          match re.startswith sep s with
          | Some _ => cur :: split_from sep (String.length sep - 1) "" s'
          | None => split_from sep 0 (cur +:+ String c "") s'
          end
      end
  end.

(** [s.split(sep)]; [None] stands for the [ValueError] raised on an empty
    separator. *)
Definition split (sep s : string) : option (list string) :=
  match sep with
  | EmptyString => None
  | String _ _ => Some (split_from sep 0 "" s)
  end.

End str.

Module summarize_papers.

(** [{**paper, "summary": summary}] *)
Record Summarized : Type := { paper : Paper; summary : string }.

(** A call into the Gemini API. *)
Inductive call : Type :=
| Upload (path display_name : string)            (* genai.upload_file *)
| Generate (model_name pdf prompt : string).     (* model.generate_content *)

(** What the second script reads from outside: the clock, and the answers
    of the API, numbered in the order of the calls. *)
Record Gemini : Type := {
  now_main : datetime;                                       (* clock read at line 104 *)
  now_readme : datetime;                                     (* clock read at line 57 *)
  upload_file : nat → string → string → option exn;
  generate_content : nat → string → string → string → exn + string;
}.

(** The state of the second script: the JSON files, the text files and the
    PDF files on disk (taken to live under different paths), the
    directories it made sure of, the API calls made and the seconds
    slept.  Writing, making directories and removing files are taken to
    succeed; the configuration of the API key at line 19, which runs when
    the module is loaded, is left out. *)
Record Session : Type := {
  json_files : gmap string (list Paper);
  text_files : gmap string string;
  pdf_files : gset string;
  made : list string;
  calls : list call;
  slept : nat;
}.

Definition M (A : Type) : Type := Session → (exn + A) * Session.

#[global] Instance M_ret : MRet M := λ A x ss, (inr x, ss).
#[global] Instance M_bind : MBind M := λ A B f m ss,
  match m ss with
  | (inl e, ss') => (inl e, ss')
  | (inr x, ss') => f x ss'
  end.

Definition raise {A : Type} (e : exn) : M A := λ ss, (inl e, ss).

(** [try: m except Exception: h] *)
Definition try_except {A : Type} (m : M A) (h : exn → M A) : M A := λ ss,
  match m ss with
  | (inl e, ss') => h e ss'
  | (inr x, ss') => (inr x, ss')
  end.

(** [open(path, "r").read()]; a missing file raises [FileNotFoundError],
    an [IOError]. *)
Definition read (path : string) : M string := λ ss,
  match text_files ss !! path with
  | Some content => (inr content, ss)
  | None => (inl IOError, ss)
  end.

(** [open(path, "w").write(content)] *)
Definition write (path content : string) : M unit := λ ss,
  (inr (), {| json_files := json_files ss; text_files := <[path := content]> (text_files ss);
              pdf_files := pdf_files ss; made := made ss; calls := calls ss;
              slept := slept ss |}).

(** [json.load(open(path, "r"))] *)
Definition load (path : string) : M (list Paper) := λ ss,
  match json_files ss !! path with
  | Some papers => (inr papers, ss)
  | None => (inl IOError, ss)
  end.

(** [os.makedirs(dir, exist_ok=True)] *)
Definition makedirs (dir : string) : M unit := λ ss,
  (inr (), {| json_files := json_files ss; text_files := text_files ss;
              pdf_files := pdf_files ss; made := made ss ++ [dir]; calls := calls ss;
              slept := slept ss |}).

(** [time.sleep(seconds)] *)
Definition sleep (seconds : nat) : M unit := λ ss,
  (inr (), {| json_files := json_files ss; text_files := text_files ss;
              pdf_files := pdf_files ss; made := made ss; calls := calls ss;
              slept := slept ss + seconds |}).

(** [if os.path.exists(path): os.remove(path)] *)
Definition remove_if_exists (path : string) : M unit := λ ss,
  (inr (), {| json_files := json_files ss; text_files := text_files ss;
              pdf_files := if bool_decide (path ∈ pdf_files ss)
                           then pdf_files ss ∖ {[ path ]} else pdf_files ss;
              made := made ss; calls := calls ss; slept := slept ss |}).

Definition calling (c : call) (ss : Session) : Session :=
  {| json_files := json_files ss; text_files := text_files ss; pdf_files := pdf_files ss;
     made := made ss; calls := calls ss ++ [c]; slept := slept ss |}.

(** [genai.upload_file(path=path, display_name=display_name)] *)
Definition upload (g : Gemini) (path display_name : string) : M string := λ ss,
  match upload_file g (length (calls ss)) path display_name with
  | Some e => (inl e, calling (Upload path display_name) ss)
  | None => (inr path, calling (Upload path display_name) ss)
  end.

(** [model.generate_content([pdf_file, prompt]).text] *)
Definition generate (g : Gemini) (model_name pdf prompt : string) : M string := λ ss,
  match generate_content g (length (calls ss)) model_name pdf prompt with
  | inl e => (inl e, calling (Generate model_name pdf prompt) ss)
  | inr text => (inr text, calling (Generate model_name pdf prompt) ss)
  end.

(** Lines 21-47. *)
Definition summarize_paper (g : Gemini) (title abstract pdf_path model_name : string) : M string :=
  pdf_file ← upload g pdf_path ("paper_" +:+ title);
  prompt_template ← read "templates/prompt_template.md";
  let prompt := str.replace "{abstract}" abstract (str.replace "{title}" title prompt_template) in
  generate g model_name pdf_file prompt.

(** Lines 59-63: what one summary adds to [new_content]. *)
Definition entry (s : Summarized) : string :=
  let summary := str.replace str.LF " " (summary s) in
  "## [" +:+ title (paper s) +:+ "](" +:+ arxiv_link (paper s) +:+ ")" +:+ str.LF +:+
  "summary:" +:+ summary +:+ str.LF +:+ str.LF.

(** Lines 58-63. *)
Definition new_content (date_str : string) (summaries : list Summarized) : string :=
  foldl (λ new_content summary, new_content +:+ entry summary)
        (str.LF +:+ str.LF +:+ "# Papers for " +:+ date_str +:+ str.LF +:+ str.LF)
        summaries.

(** [parts[i]] on the result of [split]. *)
Definition part (sep s : string) (i : nat) : M string :=
  parts ← from_option mret (raise OtherException) (str.split sep s);
  from_option mret (raise IndexError) (parts !! i).

(** Lines 50-97. *)
Definition update_readme (g : Gemini) (summaries : list Summarized) : M unit :=
  let date_str := strftime_Ymd (now_readme g) in
  let new_content := new_content date_str summaries in
  day ← part "-" date_str 2;
  year ← part "-" date_str 0;
  month ← part "-" date_str 1;
  _ ← makedirs ("archive/" +:+ year +:+ "/" +:+ month);
  _ ← write ("archive/" +:+ year +:+ "/" +:+ month +:+ "/" +:+ day +:+ ".md") new_content;
  existing_content ← read "README.md";
  intro_content ← read "templates/README_intro.md";
  let date_str_readme := str.replace "-" "--" date_str in
  let intro_content :=
    str.replace "{DATE}" (date_str_readme +:+ " " +:+ str.LF +:+ " " +:+ str.LF) intro_content in
  front_content ← part "## Papers for" existing_content 0;
  let existing_content := str.replace front_content "" existing_content in
  let updated_content := intro_content +:+ new_content +:+ str.LF +:+ str.LF +:+ existing_content in
  write "README.md" updated_content.

(** Lines 110-132: one turn of the summarising loop. *)
Definition summarize_one (g : Gemini) (summaries : list Summarized) (paper : Paper)
  : M (list Summarized) :=
  try_except
    (summary ← summarize_paper g (title paper) (abstract paper) (pdf_path paper) "gemini-2.5-pro";
     let summaries := summaries ++ [ {| paper := paper; summary := summary |} ] in
     _ ← sleep 60;
     mret summaries)
    (λ _,
       try_except
         (summary ← summarize_paper g (title paper) (abstract paper) (pdf_path paper)
                      "gemini-2.5-flash";
          mret (summaries ++ [ {| paper := paper; summary := summary |} ]))
         (λ _, mret summaries)).

(** Lines 109-132. *)
Fixpoint summarize_all (g : Gemini) (summaries : list Summarized) (papers : list Paper)
  : M (list Summarized) :=
  match papers with
  | [] => mret summaries
  | paper :: rest => summaries' ← summarize_one g summaries paper; summarize_all g summaries' rest
  end.

(** Lines 136-139. *)
Fixpoint clean_up (papers : list Paper) : M unit :=
  match papers with
  | [] => mret ()
  | paper :: rest => _ ← remove_if_exists (pdf_path paper); clean_up rest
  end.

(** Lines 107-139, once the records are loaded. *)
Definition process (g : Gemini) (papers : list Paper) : M unit :=
  summaries ← summarize_all g [] papers;
  _ ← update_readme g summaries;
  clean_up papers.

(** Lines 101-139. *)
Definition main (g : Gemini) : M unit :=
  let date := strftime_Ymd (now_main g) in
  papers ← load ("data/" +:+ date +:+ "_papers.json");
  process g papers.

End summarize_papers.

(** ** Notions used in the statements about the second script *)



(** The character [c] occurs in [s]. *)
Fixpoint has (c : ascii) (s : string) : bool :=
  match s with
  | String c' s' => bool_decide (c = c') || has c s'
  | EmptyString => false
  end.

(** The archive directory and the archive file of the day [d]. *)
Definition archive_dir (d : datetime) : string :=
  "archive/" +:+ four_digits (year d) +:+ "/" +:+ two_digits (month d).

Definition archive_file (d : datetime) : string :=
  "archive/" +:+ four_digits (year d) +:+ "/" +:+ two_digits (month d) +:+ "/" +:+
  two_digits (day d) +:+ ".md".

(** The session once the archive of the day was written (lines 71-73). *)
Definition archived (g : summarize_papers.Gemini) (summaries : list summarize_papers.Summarized)
    (ss : summarize_papers.Session) : summarize_papers.Session :=
  let d := summarize_papers.now_readme g in
  {| summarize_papers.json_files := summarize_papers.json_files ss;
     summarize_papers.text_files :=
       <[ archive_file d := summarize_papers.new_content (strftime_Ymd d) summaries ]>
         (summarize_papers.text_files ss);
     summarize_papers.pdf_files := summarize_papers.pdf_files ss;
     summarize_papers.made := summarize_papers.made ss ++ [archive_dir d];
     summarize_papers.calls := summarize_papers.calls ss;
     summarize_papers.slept := summarize_papers.slept ss |}.

(** What line 89 takes for the front matter of [README.md]. *)
Definition front_content (existing_content : string) : string :=
  default "" (head (str.split_from "## Papers for" 0 "" existing_content)).


(** The introduction with its date filled in (lines 85-86). *)
Definition dated_intro (d : datetime) (intro_content : string) : string :=
  str.replace "{DATE}"
    (str.replace "-" "--" (strftime_Ymd d) +:+ " " +:+ str.LF +:+ " " +:+ str.LF) intro_content.

(** ** Concrete sessions *)

(** An API that answers every call. *)
Definition helpful : summarize_papers.Gemini := {|
  summarize_papers.now_main := jan_16;
  summarize_papers.now_readme := jan_16;
  summarize_papers.upload_file := λ _ _ _, None;
  summarize_papers.generate_content := λ _ model_name _ _, inr ("By " +:+ model_name);
|}.

(** An API whose first model always fails. *)
Definition flaky : summarize_papers.Gemini := {|
  summarize_papers.now_main := jan_16;
  summarize_papers.now_readme := jan_16;
  summarize_papers.upload_file := λ _ _ _, None;
  summarize_papers.generate_content := λ _ model_name _ _,
    if bool_decide (model_name = "gemini-2.5-pro") then inl OtherException
    else inr ("By " +:+ model_name);
|}.

Definition first_paper : Paper :=
  {| title := "First"; arxiv_id := "2401.00001";
     arxiv_link := "https://arxiv.org/pdf/2401.00001";
     hf_link := "https://huggingface.co/papers/2401.00001";
     pdf_path := "temp_pdfs/2401.00001.pdf"; abstract := "A1" |}.

(** The disk after the first script persisted [first_paper] on January 16,
    with a README that has front matter before the marker. *)
Definition desk : summarize_papers.Session := {|
  summarize_papers.json_files := {[ "data/2024-01-16_papers.json" := [first_paper] ]};
  summarize_papers.text_files :=
    {[ "README.md" := "Front" +:+ str.LF +:+ "## Papers for 2024-01-15" +:+ str.LF +:+ "old";
       "templates/README_intro.md" := "Updated {DATE}";
       "templates/prompt_template.md" := "Title: {title}; abstract: {abstract}." ]};
  summarize_papers.pdf_files := {[ "temp_pdfs/2401.00001.pdf"; "temp_pdfs/other.pdf" ]};
  summarize_papers.made := [];
  summarize_papers.calls := [];
  summarize_papers.slept := 0;
|}.



(** The files on disk and the directories made are the same in two
    sessions. *)
Definition same_disk (ss ss' : summarize_papers.Session) : Prop :=
  summarize_papers.json_files ss' = summarize_papers.json_files ss ∧
  summarize_papers.text_files ss' = summarize_papers.text_files ss ∧
  summarize_papers.pdf_files ss' = summarize_papers.pdf_files ss ∧
  summarize_papers.made ss' = summarize_papers.made ss.

(** A record whose PDF is not among those of [desk]. *)
Definition second_paper : Paper :=
  {| title := "Second"; arxiv_id := "2401.00002";
     arxiv_link := "https://arxiv.org/pdf/2401.00002";
     hf_link := "https://huggingface.co/papers/2401.00002";
     pdf_path := "temp_pdfs/2401.00002.pdf"; abstract := "A2" |}.

(** The second script run a day after the first. *)
Definition next_day : summarize_papers.Gemini := {|
  summarize_papers.now_main := {| year := 2024; month := 1; day := 17 |};
  summarize_papers.now_readme := {| year := 2024; month := 1; day := 17 |};
  summarize_papers.upload_file := λ _ _ _, None;
  summarize_papers.generate_content := λ _ model_name _ _, inr ("By " +:+ model_name);
|}.

(** A session whose JSON files are those left by a run of the first
    script. *)
Definition session_after (st : State) : summarize_papers.Session := {|
  summarize_papers.json_files := files st;
  summarize_papers.text_files := summarize_papers.text_files desk;
  summarize_papers.pdf_files := summarize_papers.pdf_files desk;
  summarize_papers.made := [];
  summarize_papers.calls := [];
  summarize_papers.slept := 0;
|}.

(** Goals that say which parts of the session a step leaves alone. *)
Ltac frame :=
  unfold same_disk; simpl; rewrite ?length_app; simpl; repeat split; try done; try lia.

(** * Properties *)

(** ** Examples *)

Example arxiv_id_match_plain :
  (arxiv_id_match three_articles "/papers/2401.00001" ≫= λ m, re.group m 1) = Some "2401.00001".
Proof. reflexivity. Qed.

Example arxiv_id_match_suffix :
  (arxiv_id_match three_articles "x/papers/a/papers/24.5v2/papers/7.7" ≫= λ m, re.group m 1)
    = Some "24.5".
Proof. reflexivity. Qed.

Example arxiv_id_match_none :
  arxiv_id_match three_articles "/papers/2401." = None.
Proof. reflexivity. Qed.

(** Digits of other scripts are digits: Arabic-Indic, fullwidth. *)
Example arxiv_id_match_arabic_indic :
  (arxiv_id_match three_articles "/papers/١٢.٣٤" ≫= λ m, re.group m 1) = Some "١٢.٣٤".
Proof. reflexivity. Qed.

Example arxiv_id_match_mixed :
  (arxiv_id_match three_articles "/papers/12.3٤５x" ≫= λ m, re.group m 1) = Some "12.3٤５".
Proof. reflexivity. Qed.

(** Superscript two is no decimal digit. *)
Example arxiv_id_match_superscript :
  (arxiv_id_match three_articles "/papers/12.3²" ≫= λ m, re.group m 1) = Some "12.3".
Proof. reflexivity. Qed.

Example strftime_Ymd_example :
  strftime_Ymd (minus_one_day {| year := 2024; month := 3; day := 1 |}) = "2024-02-29".
Proof. reflexivity. Qed.

(** ** Strings *)

Global Arguments re.startswith : simpl never.

Lemma app_String (c : ascii) (s t : string) : String c s +:+ t = String c (s +:+ t).
Proof. reflexivity. Qed.

Lemma app_empty_l (s : string) : "" +:+ s = s.
Proof. reflexivity. Qed.

Lemma app_empty_r (s : string) : s +:+ "" = s.
Proof. induction s as [|c s IH]; [done|]. by rewrite app_String, IH. Qed.

Lemma app_assoc_str (s t u : string) : (s +:+ t) +:+ u = s +:+ (t +:+ u).
Proof. induction s as [|c s IH]; [done|]. by rewrite !app_String, IH. Qed.

Lemma length_app_str (s t : string) :
  String.length (s +:+ t) = String.length s + String.length t.
Proof. induction s as [|c s IH]; [done|]. rewrite app_String. simpl. by rewrite IH. Qed.

(** Two prefixes of one string that have the same length are equal. *)
Lemma app_same_length (s s' t t' : string) :
  s +:+ t = s' +:+ t' → String.length s = String.length s' → s = s' ∧ t = t'.
Proof.
  revert s'. induction s as [|c s IH]; intros [|c' s'] Heq Hlen; try done.
  rewrite !app_String in Heq. simplify_eq/=.
  destruct (IH s') as [-> ->]; auto.
Qed.

(** Of two prefixes of one string, the shorter is a prefix of the longer. *)
Lemma app_shorter (s s' t t' : string) :
  s +:+ t = s' +:+ t' → (String.length s ≤ String.length s')%nat →
  ∃ u, s' = s +:+ u ∧ t = u +:+ t'.
Proof.
  revert s'. induction s as [|c s IH]; intros s' Heq Hlen.
  - exists s'. done.
  - destruct s' as [|c' s']; simpl in Hlen; [lia|].
    rewrite !app_String in Heq. simplify_eq/=.
    destruct (IH s') as (u & -> & ->); [done|lia|]. by exists u.
Qed.

Lemma startswith_Some (l s r : string) : re.startswith l s = Some r ↔ s = l +:+ r.
Proof.
  revert s. induction l as [|a l IH]; intros s.
  - rewrite app_empty_l. change (re.startswith "" s) with (Some s).
    split; congruence.
  - rewrite app_String. destruct s as [|b s]; [done|].
    change (re.startswith (String a l) (String b s))
      with (if Ascii.eqb a b then re.startswith l s else None).
    destruct (Ascii.eqb_spec a b) as [->|Hne].
    + rewrite IH. split; congruence.
    + split; congruence.
Qed.

Lemma startswith_app (l r : string) : re.startswith l (l +:+ r) = Some r.
Proof. by apply startswith_Some. Qed.

(** ** Characters *)

(** A decoded character is a non-empty prefix. *)
Lemma next_split (s : string) (c : N) (tok r : string) :
  utf8.next s = Some (c, tok, r) → s = tok +:+ r ∧ tok ≠ "".
Proof.
  unfold utf8.next. intros Hn.
  repeat (case_match; try done); by simplify_eq.
Qed.

(** Decoding looks at the bytes of the character only. *)
Lemma next_app (s : string) (c : N) (tok r r' : string) :
  utf8.next s = Some (c, tok, r) → utf8.next (tok +:+ r') = Some (c, tok, r').
Proof.
  intros Hn. unfold utf8.next in Hn.
  repeat (case_match; try done); simplify_eq;
    rewrite ?app_String, ?app_empty_l; unfold utf8.next;
    repeat (match goal with H : _ = _ |- _ => rewrite H; clear H end); done.
Qed.

Lemma next_shorter (s : string) (c : N) (tok r : string) :
  utf8.next s = Some (c, tok, r) → (String.length r < String.length s)%nat.
Proof.
  intros [-> Htok]%next_split. rewrite length_app_str.
  destruct tok; [done|]. simpl. lia.
Qed.

(** Induction on a string, character by character. *)
Lemma chars_ind (P : string → Prop) :
  (∀ s, (∀ c tok r, utf8.next s = Some (c, tok, r) → P r) → P s) → ∀ s, P s.
Proof.
  intros Hstep s. remember (String.length s) as n eqn:Hlen. revert s Hlen.
  induction n as [n IH] using lt_wf_ind. intros s ->.
  apply Hstep. intros c tok r Hn%next_shorter. by apply (IH (String.length r)).
Qed.

(** ** Character classes *)

Lemma span_upto_enough (cls : N → bool) (n m : nat) (s : string) :
  (String.length s ≤ n)%nat → (String.length s ≤ m)%nat →
  span_upto n cls s = span_upto m cls s.
Proof.
  revert m s. induction n as [|n IH]; intros [|m] s Hn Hm; [done| | |].
  - destruct s; [done|]. simpl in Hn. lia.
  - destruct s; [done|]. simpl in Hm. lia.
  - cbn [span_upto]. destruct (utf8.next s) as [[[c tok] r]|] eqn:Hnext; [|done].
    apply next_shorter in Hnext. destruct (cls c); [|done].
    by rewrite (IH m r) by lia.
Qed.

Lemma span_eq (cls : N → bool) (s : string) :
  span cls s =
  match utf8.next s with
  | Some (c, tok, r) =>
      if cls c then (tok +:+ (span cls r).1, (span cls r).2) else ("", s)
  | None => ("", s)
  end.
Proof.
  unfold span. destruct s as [|b s]; [done|].
  cbn [String.length span_upto].
  destruct (utf8.next (String b s)) as [[[c tok] r]|] eqn:Hnext; [|done].
  apply next_shorter in Hnext. simpl in Hnext. destruct (cls c); [|done].
  by rewrite (span_upto_enough cls (String.length s) (String.length r)) by lia.
Qed.

Lemma span_app (cls : N → bool) (s : string) : (span cls s).1 +:+ (span cls s).2 = s.
Proof.
  induction s as [s IH] using chars_ind. rewrite span_eq.
  destruct (utf8.next s) as [[[c tok] r]|] eqn:Hnext; [|done].
  destruct (cls c); [|done]. cbn [fst snd].
  rewrite app_assoc_str, (IH _ _ _ eq_refl). by apply next_split in Hnext as [-> _].
Qed.

Lemma span_begins (cls : N → bool) (s : string) : begins cls (span cls s).2 = false.
Proof.
  induction s as [s IH] using chars_ind. rewrite span_eq.
  destruct (utf8.next s) as [[[c tok] r]|] eqn:Hnext.
  - destruct (cls c) eqn:Hc; cbn [snd]; [by eapply IH|].
    unfold begins. by rewrite Hnext.
  - unfold begins. cbn [snd]. by rewrite Hnext.
Qed.

Lemma span_empty (cls : N → bool) (s : string) :
  (span cls s).1 = "" ↔ begins cls s = false.
Proof.
  rewrite span_eq. unfold begins.
  destruct (utf8.next s) as [[[c tok] r]|] eqn:Hnext; [|done].
  apply next_split in Hnext as [_ Htok].
  destruct (cls c); cbn [fst]; [|done]. split; [|done].
  destruct tok; [done|]. by rewrite app_String.
Qed.

(** The longest run, followed by anything, is extended by the run of what
    follows. *)
Lemma span_prefix (cls : N → bool) (s r' : string) :
  span cls ((span cls s).1 +:+ r') = ((span cls s).1 +:+ (span cls r').1, (span cls r').2).
Proof.
  induction s as [s IH] using chars_ind. rewrite (span_eq cls s).
  destruct (utf8.next s) as [[[c tok] r]|] eqn:Hnext.
  - destruct (cls c) eqn:Hc; cbn [fst];
      [|rewrite !app_empty_l; by destruct (span cls r')].
    rewrite app_assoc_str, span_eq, (next_app _ _ _ _ _ Hnext), Hc.
    by rewrite (IH _ _ _ eq_refl), app_assoc_str.
  - cbn [fst]. rewrite !app_empty_l. by destruct (span cls r').
Qed.

Lemma all_span (cls : N → bool) (d : string) : all cls d = true ↔ (span cls d).1 = d.
Proof. unfold all. by rewrite bool_decide_eq_true. Qed.

Lemma span_all (cls : N → bool) (s : string) : all cls (span cls s).1 = true.
Proof.
  apply all_span. pose proof (span_prefix cls s "") as Hp.
  rewrite app_empty_r in Hp. rewrite Hp. cbn [fst]. change (span cls "") with ("", "").
  by rewrite app_empty_r.
Qed.

(** A run of the class is a prefix of the longest run. *)
Lemma span_longer (cls : N → bool) (d r : string) :
  all cls d = true → (span cls (d +:+ r)).1 = d +:+ (span cls r).1 ∧
                     (span cls (d +:+ r)).2 = (span cls r).2.
Proof.
  intros Hd%all_span. pose proof (span_prefix cls d r) as Hp.
  rewrite Hd in Hp. by rewrite Hp.
Qed.

(** A run of the class followed by something outside of it is cut there. *)
Lemma span_run (cls : N → bool) (d r : string) :
  all cls d = true → begins cls r = false → span cls (d +:+ r) = (d, r).
Proof.
  intros Hd Hr. destruct (span_longer cls d r Hd) as [H1 H2].
  apply span_empty in Hr. pose proof (span_app cls r) as Happ.
  rewrite Hr, app_empty_l in Happ. rewrite Hr, app_empty_r in H1.
  rewrite Happ in H2. destruct (span cls (d +:+ r)). simpl in *. congruence.
Qed.

(** A full stop and a slash are no digits, whatever the Unicode database. *)
Lemma begins_digit_dot (w : World) (s : string) : begins (digit w) ("." +:+ s) = false.
Proof. reflexivity. Qed.

Lemma begins_digit_slash (w : World) (s : string) : begins (digit w) ("/" +:+ s) = false.
Proof. reflexivity. Qed.

(** ** The backtracking matcher on the pattern of line 100 *)

Lemma plus_ways_upto_enough (cls : N → bool) (n m : nat) (s : string) :
  (String.length s ≤ n)%nat → (String.length s ≤ m)%nat →
  re.plus_ways_upto n cls s = re.plus_ways_upto m cls s.
Proof.
  revert m s. induction n as [|n IH]; intros [|m] s Hn Hm; [done| | |].
  - destruct s; [done|]. simpl in Hn. lia.
  - destruct s; [done|]. simpl in Hm. lia.
  - cbn [re.plus_ways_upto]. destruct (utf8.next s) as [[[c tok] r]|] eqn:Hnext; [|done].
    apply next_shorter in Hnext. destruct (cls c); [|done].
    by rewrite (IH m r) by lia.
Qed.

Lemma plus_ways_eq (cls : N → bool) (s : string) :
  re.plus_ways cls s =
  match utf8.next s with
  | Some (c, tok, r) =>
      if cls c then (re.shift tok <$> re.plus_ways cls r) ++ [re.Way tok [] r] else []
  | None => []
  end.
Proof.
  unfold re.plus_ways. destruct s as [|b s]; [done|].
  cbn [String.length re.plus_ways_upto].
  destruct (utf8.next (String b s)) as [[[c tok] r]|] eqn:Hnext; [|done].
  apply next_shorter in Hnext. simpl in Hnext. destruct (cls c); [|done].
  by rewrite (plus_ways_upto_enough cls (String.length s) (String.length r)) by lia.
Qed.

(** Greedy first; every other way stops before a character of the class. *)
Lemma plus_ways_shape (cls : N → bool) (s : string) :
  (begins cls s = false ∧ re.plus_ways cls s = []) ∨
  (begins cls s = true ∧
   ∃ t, re.plus_ways cls s = re.Way (span cls s).1 [] (span cls s).2 :: t ∧
        ∀ w, w ∈ t → begins cls (re.rest w) = true).
Proof.
  induction s as [s IH] using chars_ind.
  rewrite plus_ways_eq, span_eq. unfold begins at 1 2.
  destruct (utf8.next s) as [[[c tok] r]|] eqn:Hnext; [|by left].
  destruct (cls c) eqn:Hc; [right|by left].
  split; [done|]. destruct (IH _ _ _ eq_refl) as [[Hb Hnil]|[Hb (t & Ht & Hrest)]].
  - rewrite Hnil. exists []. split.
    + apply span_empty in Hb. pose proof (span_app cls r) as Happ.
      rewrite Hb, app_empty_l in Happ. by rewrite Hb, Happ, app_empty_r.
    + intros w Hw. by apply elem_of_nil in Hw.
  - rewrite Ht. exists ((re.shift tok <$> t) ++ [re.Way tok [] r])%list. split; [done|].
    intros w [Hw|Hw]%elem_of_app.
    + apply list_elem_of_fmap in Hw as (w' & -> & Hw'). simpl. auto.
    + apply list_elem_of_singleton in Hw as ->. done.
Qed.

Lemma head_bind_first {A B : Type} (f : A → list B) (x : A) (t : list A) :
  (∀ y, y ∈ t → f y = []) → head ((x :: t) ≫= f) = head (f x).
Proof.
  intros Ht. rewrite bind_cons.
  assert (t ≫= f = []) as ->; [|by rewrite app_nil_r].
  induction t as [|y t IH]; [done|]. rewrite bind_cons, Ht, IH; [done| |].
  - intros z Hz. apply Ht. by right.
  - by left.
Qed.

Lemma head_bind_singleton {A B : Type} (g : A → B) (l : list A) :
  head (l ≫= λ x, [g x]) = g <$> head l.
Proof. by destruct l. Qed.

Lemma head_plus_ways (cls : N → bool) (s : string) :
  head (re.plus_ways cls s) =
  if bool_decide ((span cls s).1 = "") then None
  else Some (re.Way (span cls s).1 [] (span cls s).2).
Proof.
  destruct (plus_ways_shape cls s) as [[Hb ->]|[Hb (t & -> & _)]].
  - apply span_empty in Hb. by rewrite bool_decide_true.
  - rewrite bool_decide_false; [done|]. intros He%span_empty. congruence.
Qed.

Lemma head_fmap_list {A B : Type} (g : A → B) (l : list A) :
  head (g <$> l) = g <$> head l.
Proof. by destruct l. Qed.

Lemma ways_dot_digits_digit (w : World) (s : string) :
  begins (digit w) s = true → re.ways (dot_digits w) s = [].
Proof.
  intros Hs. unfold dot_digits. cbn [re.ways].
  destruct (re.startswith "." s) as [r|] eqn:Hdot; [|done].
  apply startswith_Some in Hdot as ->. by rewrite begins_digit_dot in Hs.
Qed.

Lemma head_ways_dot_digits (w : World) (s : string) :
  head (re.ways (dot_digits w) s) =
  r2 ← re.startswith "." s;
  if bool_decide ((span (digit w) r2).1 = "") then None
  else Some (re.Way ("." +:+ (span (digit w) r2).1) [] (span (digit w) r2).2).
Proof.
  unfold dot_digits. cbn [re.ways].
  destruct (re.startswith "." s) as [r2|]; [|done].
  rewrite bind_cons. cbn [mbind list_bind option_bind]. rewrite app_nil_r.
  cbn [re.rest re.consumed re.captures].
  rewrite head_bind_singleton, head_plus_ways. by case_bool_decide.
Qed.

Lemma head_ways_digits_dot_digits (w : World) (s : string) :
  head (re.ways (re.Cat (re.Plus (digit w)) (dot_digits w)) s) =
  if bool_decide ((span (digit w) s).1 = "") then None else
  r2 ← re.startswith "." (span (digit w) s).2;
  if bool_decide ((span (digit w) r2).1 = "") then None
  else Some (re.Way ((span (digit w) s).1 +:+ "." +:+ (span (digit w) r2).1) []
                    (span (digit w) r2).2).
Proof.
  cbn [re.ways].
  destruct (plus_ways_shape (digit w) s) as [[Hb ->]|[Hb (t & -> & Ht)]].
  - apply span_empty in Hb. by rewrite bool_decide_true.
  - rewrite bool_decide_false; [|intros He%span_empty; congruence].
    rewrite head_bind_first.
    + cbn [re.rest re.consumed re.captures].
      rewrite head_bind_singleton, head_ways_dot_digits.
      destruct (re.startswith "." _) as [r2|]; [|done]. simpl.
      by case_bool_decide.
    + intros w' Hw. fold (dot_digits w). by rewrite ways_dot_digits_digit; [|auto].
Qed.

(** On the pattern of line 100, backtracking finds what the scan computes. *)
Lemma match_scan_id (w : World) (s : string) :
  re.match_ (arxiv_id_pattern w) s =
  (λ id, {| re.group0 := "/papers/" +:+ id; re.groups := [id] |}) <$> scan_id w s.
Proof.
  unfold re.match_, scan_id, arxiv_id_pattern.
  change (re.Cat (re.Lit ".") (re.Plus (digit w))) with (dot_digits w).
  set (body := re.Cat (re.Plus (digit w)) (dot_digits w)).
  change (re.ways (re.Cat (re.Lit "/papers/") (re.Group body)) s) with
    (w1 ← re.ways (re.Lit "/papers/") s;
     w2 ← ((λ w, re.Way (re.consumed w) (re.consumed w :: re.captures w) (re.rest w))
             <$> re.ways body (re.rest w1));
     [re.Way (re.consumed w1 +:+ re.consumed w2) (re.captures w1 ++ re.captures w2)
             (re.rest w2)]).
  cbn [re.ways]. destruct (re.startswith "/papers/" s) as [r|] eqn:Hpre; [|done].
  rewrite bind_cons. cbn [mbind list_bind option_bind]. rewrite app_nil_r.
  cbn [re.rest re.consumed re.captures].
  rewrite head_bind_singleton, head_fmap_list. subst body.
  rewrite head_ways_digits_dot_digits.
  case_bool_decide; [done|].
  destruct (re.startswith "." _) as [r2|]; [|done]. simpl.
  by case_bool_decide.
Qed.

(** What the scan finds is an occurrence at the start of [s] that takes all
    the digits after the dot. *)
Lemma scan_id_occurrence (w : World) (s id : string) :
  scan_id w s = Some id →
  ∃ d1 d2 post, occurrence w s "" d1 d2 post ∧ begins (digit w) post = false ∧
                id = d1 +:+ "." +:+ d2.
Proof.
  unfold scan_id. intros Hscan.
  destruct (re.startswith "/papers/" s) as [r|] eqn:Hpre; [|done].
  apply startswith_Some in Hpre. simpl in Hscan.
  case_bool_decide as Hd1; [done|].
  destruct (re.startswith "." _) as [r2|] eqn:Hdot; [|done].
  apply startswith_Some in Hdot. simpl in Hscan.
  case_bool_decide as Hd2; [done|]. simplify_eq.
  exists (span (digit w) r).1, (span (digit w) r2).1, (span (digit w) r2).2.
  split; [|split; [apply span_begins|done]].
  unfold occurrence. split_and!; auto using span_all.
  rewrite app_empty_l. f_equal.
  rewrite <-(span_app (digit w) r) at 1. f_equal. rewrite Hdot. f_equal.
  by rewrite span_app.
Qed.

(** An occurrence at the start of [s] is found by the scan, which extends
    its last digits as far as they go. *)
Lemma occurrence_scan_id (w : World) (s d1 d2 post : string) :
  occurrence w s "" d1 d2 post →
  scan_id w s = Some (d1 +:+ "." +:+ d2 +:+ (span (digit w) post).1).
Proof.
  intros (-> & Hn1 & Hn2 & Hd1 & Hd2). unfold scan_id.
  rewrite app_empty_l, startswith_app. cbn [mbind option_bind].
  rewrite (span_run (digit w) d1 ("." +:+ d2 +:+ post)) by done. cbn [fst snd].
  rewrite bool_decide_false by done.
  rewrite startswith_app. cbn [mbind option_bind].
  destruct (span_longer (digit w) d2 post Hd2) as [-> _].
  rewrite bool_decide_false; [done|].
  destruct d2; [done|]. by rewrite app_String.
Qed.

(** ** [re.search] *)

Lemma search_Some (p : re.pattern) (s : string) (m : re.Match) :
  re.search p s = Some m →
  ∃ pre s', s = pre +:+ s' ∧ re.match_ p s' = Some m ∧
    ∀ pre2 s2, s = pre2 +:+ s2 → (String.length pre2 < String.length pre)%nat →
               re.match_ p s2 = None.
Proof.
  induction s as [|c s IH]; simpl.
  - destruct (re.match_ p "") as [m0|] eqn:Hm; [|done]. intros [= ->].
    exists "", "". split_and!; [done..|]. simpl. lia.
  - destruct (re.match_ p (String c s)) as [m0|] eqn:Hm.
    + intros [= ->]. exists "", (String c s). split_and!; [done..|]. simpl. lia.
    + intros (pre & s' & -> & Hs' & Hmin)%IH.
      exists (String c pre), s'. split_and!; [done..|].
      intros [|c2 pre2] s2 Heq Hlen.
      * rewrite app_empty_l in Heq. by subst s2.
      * rewrite app_String in Heq. simplify_eq/=. apply (Hmin pre2); [done|lia].
Qed.

Lemma search_None (p : re.pattern) (s : string) :
  re.search p s = None → ∀ pre s', s = pre +:+ s' → re.match_ p s' = None.
Proof.
  induction s as [|c s IH]; simpl.
  - destruct (re.match_ p "") as [m0|] eqn:Hm; [done|].
    intros _ [|??] s'; [|done]. rewrite app_empty_l. by intros <-.
  - destruct (re.match_ p (String c s)) as [m0|] eqn:Hm; [done|].
    intros Hs [|c2 pre] s' Heq.
    + rewrite app_empty_l in Heq. by subst s'.
    + rewrite app_String in Heq. simplify_eq/=. by eapply IH.
Qed.

(** ** The key extractor *)

(** The identifier that line 100-102 read off a link. *)
Lemma arxiv_id_match_group (w : World) (link : string) (m : re.Match) :
  arxiv_id_match w link = Some m → ∃ id, re.group m 1 = Some id ∧ re.groups m = [id].
Proof.
  intros (pre & s' & _ & Hm & _)%search_Some.
  rewrite match_scan_id in Hm. destruct (scan_id w s') as [id|]; [|done].
  simplify_eq/=. by exists id.
Qed.

(** The extractor never raises and leaves the state alone. *)
Lemma extract_arxiv_id_run (w : World) (link : string) (st : State) :
  extract_arxiv_id w link st = (inr (arxiv_id_match w link ≫= λ m, re.group m 1), st).
Proof.
  unfold extract_arxiv_id. destruct (arxiv_id_match w link) as [m|] eqn:Hm; [|done].
  destruct (arxiv_id_match_group _ _ _ Hm) as (id & Hid & _).
  cbn [mbind option_bind]. by rewrite Hid.
Qed.

(** An occurrence anywhere makes the search succeed, at or before it. *)
Lemma occurrence_search (w : World) (link pre d1 d2 post : string) :
  occurrence w link pre d1 d2 post → is_Some (arxiv_id_match w link).
Proof.
  intros (Heq & Hrest). unfold arxiv_id_match.
  destruct (re.search (arxiv_id_pattern w) link) as [m|] eqn:Hs; [done|].
  pose proof (search_None _ _ Hs pre _ Heq) as Hnone.
  rewrite match_scan_id, (occurrence_scan_id _ _ d1 d2 post) in Hnone; [done|].
  by split.
Qed.

(** A successful search is a first occurrence. *)
Lemma search_first_occurrence (w : World) (link : string) (m : re.Match) :
  arxiv_id_match w link = Some m →
  ∃ pre d1 d2 post, first_occurrence w link pre d1 d2 post ∧
                    re.group m 1 = Some (d1 +:+ "." +:+ d2).
Proof.
  intros (pre & s' & -> & Hm & Hmin)%search_Some.
  rewrite match_scan_id in Hm. destruct (scan_id w s') as [id|] eqn:Hscan; [|done].
  simplify_eq/=.
  apply scan_id_occurrence in Hscan as (d1 & d2 & post & Hocc & Hpost & ->).
  exists pre, d1, d2, post. split; [|done]. split_and!; [|done|].
  - destruct Hocc as (-> & ?). rewrite app_empty_l. done.
  - intros pre' d1' d2' post' (Heq' & Hrest').
    destruct (decide (String.length pre' < String.length pre)%nat) as [Hlt|]; [|lia].
    pose proof (Hmin _ _ Heq' Hlt) as Hnone.
    rewrite match_scan_id, (occurrence_scan_id _ _ d1' d2' post') in Hnone; [done|].
    by split.
Qed.

(** There is at most one first occurrence. *)
Lemma first_occurrence_unique (w : World) (link pre d1 d2 post pre' d1' d2' post' : string) :
  first_occurrence w link pre d1 d2 post → first_occurrence w link pre' d1' d2' post' →
  pre = pre' ∧ d1 = d1' ∧ d2 = d2' ∧ post = post'.
Proof.
  intros (Hocc & Hpost & Hmin) (Hocc' & Hpost' & Hmin').
  pose proof (Hmin _ _ _ _ Hocc') as Hle. pose proof (Hmin' _ _ _ _ Hocc) as Hle'.
  destruct Hocc as (-> & Hn1 & Hn2 & Hd1 & Hd2).
  destruct Hocc' as (Heq & Hn1' & Hn2' & Hd1' & Hd2').
  apply app_same_length in Heq as [-> Heq]; [|lia].
  apply (inj (String.app "/papers/")) in Heq.
  pose proof (span_run (digit w) d1 ("." +:+ d2 +:+ post) Hd1 (begins_digit_dot w _)) as H1.
  rewrite Heq, (span_run (digit w) d1' ("." +:+ d2' +:+ post') Hd1' (begins_digit_dot w _)) in H1.
  injection H1 as -> Hdot. rewrite !app_empty_l in Hdot.
  pose proof (span_run (digit w) d2 post Hd2 Hpost) as H2.
  rewrite <-Hdot, (span_run (digit w) d2' post' Hd2' Hpost') in H2.
  by injection H2 as -> ->.
Qed.

(** ** Running the monad *)

Lemma bind_run {A B : Type} (m : M A) (f : A → M B) (st : State) :
  (m ≫= f) st =
  match m st with
  | (inl e, st') => (inl e, st')
  | (inr x, st') => f x st'
  end.
Proof. reflexivity. Qed.

Lemma ret_run {A : Type} (x : A) (st : State) : (mret x : M A) st = (inr x, st).
Proof. reflexivity. Qed.

(** ** One turn of the loop *)

(** What lines 89-105 do, case by case. *)
Lemma scrape_run (w : World) (paper : Article) (st : State) :
  scrape w paper st =
  match a_ paper with
  | None => (inl AttributeError, st)
  | Some a =>
      match attrs a !! "href" with
      | None => (inl TypeError, st)
      | Some link =>
          let st' := requesting (HF_BASE_URL +:+ link) st in
          match requests_get w (length (requested st)) (HF_BASE_URL +:+ link) with
          | Raises e => (inl e, st')
          | Returns content =>
              if negb (status_code content =? 200)%Z then (inr None, st') else
              match find_h1 (soup content), find_p (soup content) with
              | Some h1, Some p =>
                  (inr ((λ id, {| scraped_title := replace_newline_space (text h1);
                                  scraped_abstract := text p;
                                  scraped_arxiv_id := id;
                                  scraped_hf_paper_url := HF_BASE_URL +:+ link |})
                          <$> (arxiv_id_match w link ≫= λ m, re.group m 1)), st')
              | _, _ => (inl AttributeError, st')
              end
          end
      end
  end.
Proof.
  unfold scrape. rewrite bind_run.
  destruct (a_ paper) as [a|]; [|done]. cbn [getattr]. rewrite ret_run.
  destruct (attrs a !! "href") as [link|]; [|done].
  rewrite bind_run. unfold get at 1.
  destruct (requests_get w _ _) as [content|e]; [|done].
  destruct (negb _); [done|]. rewrite bind_run.
  destruct (find_h1 _) as [h1|]; [|done]. cbn [getattr]. rewrite ret_run, bind_run.
  destruct (find_p _) as [p|]; [|done]. cbn [getattr]. rewrite ret_run, bind_run.
  rewrite extract_arxiv_id_run.
  by destruct (arxiv_id_match w link ≫= _).
Qed.

(** The loop body is lines 89-105 followed by lines 107-126. *)
Lemma visit_run (w : World) (loc : Locals) (paper : Article) (st : State) :
  visit w loc paper st =
  match scrape w paper st with
  | (inl e, st') => (inl e, st')
  | (inr s, st') => (inr (keep_if_any loc s), st')
  end.
Proof. unfold visit. rewrite bind_run. by destruct (scrape w paper st) as [[e|s] st']. Qed.

Lemma harvest_cons (w : World) (loc : Locals) (paper : Article) (rest : list Article)
    (st : State) :
  harvest w loc (paper :: rest) st =
  match visit w loc paper st with
  | (inl e, st') => (inl e, st')
  | (inr loc', st') => harvest w loc' rest st'
  end.
Proof. reflexivity. Qed.

Lemma harvest_app (w : World) (loc : Locals) (l1 l2 : list Article) (st : State) :
  harvest w loc (l1 ++ l2) st =
  match harvest w loc l1 st with
  | (inl e, st') => (inl e, st')
  | (inr loc', st') => harvest w loc' l2 st'
  end.
Proof.
  revert loc st. induction l1 as [|paper l1 IH]; intros loc st; [done|].
  rewrite <-app_comm_cons, !harvest_cons.
  destruct (visit w loc paper st) as [[e|loc'] st']; [done|]. apply IH.
Qed.

(** A turn of the loop only touches the list of requests, and adds at most
    one. *)
Lemma scrape_frame (w : World) (paper : Article) (st : State) :
  let st' := (scrape w paper st).2 in
  made_dirs st' = made_dirs st ∧ submitted st' = submitted st ∧ files st' = files st.
Proof.
  rewrite scrape_run.
  repeat (case_match; try done).
Qed.

Lemma harvest_frame (w : World) (loc : Locals) (articles : list Article) (st : State) :
  let st' := (harvest w loc articles st).2 in
  made_dirs st' = made_dirs st ∧ submitted st' = submitted st ∧ files st' = files st.
Proof.
  revert loc st. induction articles as [|paper rest IH]; intros loc st; [done|].
  rewrite harvest_cons, visit_run.
  pose proof (scrape_frame w paper st) as Hs.
  destruct (scrape w paper st) as [[e|s] st1]; [done|]. simpl in Hs.
  specialize (IH (keep_if_any loc s) st1). simpl in IH. simpl.
  destruct Hs as (? & ? & ?), IH as (? & ? & ?). split_and!; congruence.
Qed.

(** The loop is lines 89-105 on every article, then the insertions. *)
Lemma harvest_scrape_all (w : World) (loc : Locals) (articles : list Article) (st : State) :
  harvest w loc articles st =
  match scrape_all w articles st with
  | (inl e, st') => (inl e, st')
  | (inr ss, st') => (inr (foldl keep_if_any loc ss), st')
  end.
Proof.
  revert loc st. induction articles as [|paper rest IH]; intros loc st; [done|].
  rewrite harvest_cons, visit_run. cbn [scrape_all]. rewrite bind_run.
  destruct (scrape w paper st) as [[e|s] st1]; [done|].
  rewrite IH, bind_run. by destruct (scrape_all w rest st1) as [[e|ss] st2].
Qed.

Lemma scrape_requested (w : World) (paper : Article) (st : State) :
  ∃ urls, requested (scrape w paper st).2 = requested st ++ urls.
Proof.
  rewrite scrape_run.
  repeat (case_match; try by (exists []; rewrite app_nil_r)); by eexists [_].
Qed.

(** The loop only adds requests. *)
Lemma harvest_requested (w : World) (loc : Locals) (articles : list Article) (st : State) :
  ∃ urls, requested (harvest w loc articles st).2 = requested st ++ urls.
Proof.
  revert loc st. induction articles as [|paper rest IH]; intros loc st.
  - exists []. by rewrite app_nil_r.
  - rewrite harvest_cons, visit_run.
    destruct (scrape_requested w paper st) as [urls Hurls].
    destruct (scrape w paper st) as [[e|s] st1]; [by exists urls|].
    destruct (IH (keep_if_any loc s) st1) as [urls' Hurls'].
    exists (urls ++ urls'). simpl in Hurls. by rewrite Hurls', Hurls, app_assoc.
Qed.

(** ** The duplicate check *)

Lemma with_id_absent (id : string) (l : list Paper) :
  id ∉ arxiv_id <$> l → with_id id l = [].
Proof.
  induction l as [|p l IH]; [done|]. rewrite fmap_cons, not_elem_of_cons.
  intros [Hne Hl]. unfold with_id. rewrite filter_cons_False by done. by apply IH.
Qed.

Lemma with_id_present (id : string) (l : list Paper) :
  id ∈ arxiv_id <$> l → with_id id l ≠ [].
Proof.
  intros (p & -> & Hp)%list_elem_of_fmap Hnil.
  by apply (filter_nil_not_elem_of _ _ p) in Hnil.
Qed.

Lemma with_id_NoDup (id : string) (l : list Paper) :
  NoDup (arxiv_id <$> l) → take 1 (with_id id l) = with_id id l.
Proof.
  induction l as [|p l IH]; [done|]. rewrite fmap_cons, NoDup_cons.
  intros [Hp Hl]. unfold with_id. destruct (decide (arxiv_id p = id)) as [<-|Hne].
  - rewrite filter_cons_True by done. fold (with_id (arxiv_id p) l).
    by rewrite with_id_absent.
  - rewrite filter_cons_False by done. by apply IH.
Qed.

Lemma take_1_app {A : Type} (l k : list A) : l ≠ [] → take 1 (l ++ k) = take 1 l.
Proof. by destruct l. Qed.

Lemma keep_consistent (loc : Locals) (s : Scraped) :
  consistent loc → consistent (keep loc s).
Proof.
  intros [Hnd Hseen]. unfold keep. case_bool_decide as Hin; [done|].
  split; simpl.
  - rewrite fmap_app, NoDup_app. split_and!; [done| |apply NoDup_singleton].
    intros id Hid ->%list_elem_of_singleton. by apply Hin, Hseen.
  - intros id. rewrite fmap_app, elem_of_app, elem_of_union, elem_of_singleton, Hseen.
    simpl. rewrite list_elem_of_singleton. tauto.
Qed.

Lemma no_papers_consistent : consistent no_papers.
Proof. split; [constructor|]. intros id. simpl. set_solver. Qed.

Lemma keep_all_consistent (loc : Locals) (ss : list (option Scraped)) :
  consistent loc → consistent (foldl keep_if_any loc ss).
Proof.
  revert loc. induction ss as [|[s|] ss IH]; intros loc Hloc; simpl; auto.
  by apply IH, keep_consistent.
Qed.

(** Of the records scraped under one identifier, the first is kept. *)
Lemma keep_all_first (loc : Locals) (ss : list (option Scraped)) (id : string) :
  consistent loc →
  with_id id (papers (foldl keep_if_any loc ss)) =
  take 1 (with_id id (papers loc ++ (make_paper <$> omap (λ s, s) ss))).
Proof.
  revert loc. induction ss as [|[s|] ss IH]; intros loc Hloc; simpl.
  - rewrite app_nil_r. symmetry. apply with_id_NoDup, Hloc.
  - rewrite IH by by apply keep_consistent. unfold keep.
    case_bool_decide as Hin; simpl.
    + unfold with_id. rewrite !filter_app.
      destruct (decide (scraped_arxiv_id s = id)) as [<-|Hne].
      * rewrite !take_1_app; [done|apply with_id_present, Hloc, Hin..].
      * by rewrite (filter_cons_False _ (make_paper s)).
    + by rewrite <-app_assoc.
  - by apply IH.
Qed.

(** ** The download stage *)

Lemma download_pdf_link (w : World) (n : nat) (link path : string) :
  (download_pdf w n link path).1 = link.
Proof. unfold download_pdf. by repeat case_match. Qed.

(** Pruning after every result keeps the records whose link was never
    reported as failed. *)
Lemma foldl_prune (results : list (string * bool)) (papers : list Paper) :
  foldl prune papers results =
  filter (λ paper, (arxiv_link paper, false) ∉ results) papers.
Proof.
  revert papers. induction results as [|[link success] results IH]; intros papers.
  - simpl. induction papers as [|p papers IHp]; [done|].
    rewrite filter_cons_True; [by f_equal|]. apply not_elem_of_nil.
  - simpl. rewrite IH. destruct success.
    + apply list_filter_iff. intros p. rewrite not_elem_of_cons.
      split; [by intros ?; split|tauto].
    + rewrite list_filter_filter. apply list_filter_iff. intros p.
      rewrite not_elem_of_cons. split.
      * intros [? Hne]. split; [|done]. intros [= Heq]. by apply Hne.
      * intros [Hne ?]. split; [done|]. intros Heq. apply Hne. by rewrite Heq.
Qed.

Lemma foldl_prune_sublist (results : list (string * bool)) (papers : list Paper) :
  foldl prune papers results `sublist_of` papers.
Proof. rewrite foldl_prune. apply sublist_filter. Qed.

Lemma download_all_run (w : World) (papers : list Paper) (st : State) :
  download_all w papers st =
  (inr (foldl prune papers
          (omap (λ n, imap (λ n paper, download_pdf w n (arxiv_link paper) (pdf_path paper))
                        papers !! n) (as_completed w))),
   submitting ((λ paper, (arxiv_link paper, pdf_path paper)) <$> papers) st).
Proof. reflexivity. Qed.

(** When every future is yielded, the results consumed are those of the
    tasks. *)
Lemma results_complete (w : World) (papers : list Paper) (result : string * bool) :
  as_completed w ≡ₚ seq 0 (length papers) →
  result ∈ omap (λ n, imap (λ n paper, download_pdf w n (arxiv_link paper) (pdf_path paper))
                        papers !! n) (as_completed w) ↔
  ∃ n paper, papers !! n = Some paper ∧
             download_pdf w n (arxiv_link paper) (pdf_path paper) = result.
Proof.
  intros Hperm. rewrite list_elem_of_omap. split.
  - intros (n & _ & Hn). rewrite list_lookup_imap in Hn.
    destruct (papers !! n) as [paper|] eqn:Hp; simplify_eq/=. eauto.
  - intros (n & paper & Hp & Hres). exists n. split.
    + rewrite Hperm. apply elem_of_seq. apply lookup_lt_Some in Hp. lia.
    + rewrite list_lookup_imap, Hp. simpl. by f_equal.
Qed.

(** The survivors, for records with pairwise distinct document links. *)
Lemma download_all_distinct (w : World) (papers : list Paper) (st : State) :
  NoDup (arxiv_link <$> papers) →
  as_completed w ≡ₚ seq 0 (length papers) →
  ∃ survivors,
    download_all w papers st =
      (inr survivors, submitting ((λ paper, (arxiv_link paper, pdf_path paper)) <$> papers) st) ∧
    survivors `sublist_of` papers ∧
    ∀ n paper, papers !! n = Some paper →
      (paper ∈ survivors ↔ (download_pdf w n (arxiv_link paper) (pdf_path paper)).2 = true).
Proof.
  intros Hnd Hperm. eexists. split; [apply download_all_run|].
  split; [apply foldl_prune_sublist|].
  intros n paper Hp. rewrite foldl_prune, list_elem_of_filter, results_complete by done.
  split.
  - intros [Hnot _]. destruct (download_pdf w n _ _) as [link success] eqn:Hres.
    simpl. destruct success; [done|]. exfalso. apply Hnot. exists n, paper.
    split; [done|]. rewrite Hres. f_equal.
    by rewrite <-(download_pdf_link w n (arxiv_link paper) (pdf_path paper)), Hres.
  - intros Hok. split; [|by eapply list_elem_of_lookup_2].
    intros (n' & paper' & Hp' & Hres).
    assert (arxiv_link paper' = arxiv_link paper) as Hlink.
    { by rewrite <-(download_pdf_link w n' (arxiv_link paper') (pdf_path paper')), Hres. }
    assert (n' = n) as ->.
    { eapply NoDup_lookup; [exact Hnd| |].
      - by rewrite list_lookup_fmap, Hp'.
      - by rewrite list_lookup_fmap, Hp, Hlink. }
    simplify_eq. by rewrite Hres in Hok.
Qed.

(** Whatever the input, a survivor's own task reported success. *)
Lemma download_all_only_successes (w : World) (papers : list Paper) (st : State)
    (n : nat) (paper : Paper) :
  as_completed w ≡ₚ seq 0 (length papers) →
  papers !! n = Some paper →
  paper ∈ (foldl prune papers
             (omap (λ n, imap (λ n paper, download_pdf w n (arxiv_link paper) (pdf_path paper))
                           papers !! n) (as_completed w))) →
  (download_pdf w n (arxiv_link paper) (pdf_path paper)).2 = true.
Proof.
  intros Hperm Hp. rewrite foldl_prune, list_elem_of_filter, results_complete by done.
  intros [Hnot _]. destruct (download_pdf w n _ _) as [link success] eqn:Hres.
  simpl. destruct success; [done|]. exfalso. apply Hnot. exists n, paper.
  split; [done|]. rewrite Hres. f_equal.
  by rewrite <-(download_pdf_link w n (arxiv_link paper) (pdf_path paper)), Hres.
Qed.

(** ** What the loop assembles *)

Lemma make_paper_link (s : Scraped) :
  arxiv_link (make_paper s) = "https://arxiv.org/pdf/" +:+ arxiv_id (make_paper s).
Proof. reflexivity. Qed.

Lemma keep_all_links (loc : Locals) (ss : list (option Scraped)) :
  Forall (λ paper, arxiv_link paper = "https://arxiv.org/pdf/" +:+ arxiv_id paper) (papers loc) →
  Forall (λ paper, arxiv_link paper = "https://arxiv.org/pdf/" +:+ arxiv_id paper)
         (papers (foldl keep_if_any loc ss)).
Proof.
  revert loc. induction ss as [|[s|] ss IH]; intros loc Hloc; simpl; auto.
  apply IH. unfold keep. case_bool_decide; [done|]. simpl.
  apply Forall_app. split; [done|]. by repeat constructor.
Qed.

(** The records assembled by the loop have pairwise distinct identifiers and
    pairwise distinct document links. *)
Lemma harvest_distinct (w : World) (articles : list Article) (st st' : State) (loc : Locals) :
  harvest w no_papers articles st = (inr loc, st') →
  NoDup (arxiv_id <$> papers loc) ∧ NoDup (arxiv_link <$> papers loc).
Proof.
  rewrite harvest_scrape_all.
  destruct (scrape_all w articles st) as [[e|ss] st1]; [done|]. intros [= <- <-].
  pose proof (keep_all_consistent no_papers ss no_papers_consistent) as [Hnd _].
  pose proof (keep_all_links no_papers ss (Forall_nil_2 _)) as Hlinks.
  split; [done|].
  assert (arxiv_link <$> papers (foldl keep_if_any no_papers ss) =
          String.app "https://arxiv.org/pdf/" <$> (arxiv_id <$> papers (foldl keep_if_any no_papers ss))) as ->.
  { rewrite <-list_fmap_compose. apply Forall_fmap_ext_1. exact Hlinks. }
  by apply (NoDup_fmap_2 _).
Qed.

(** ** The whole run *)

Lemma decimal_digit_not_slash (n : Z) (s : string) :
  re.startswith "/" (String (decimal_digit n) s) = None.
Proof.
  unfold decimal_digit. assert (Z.to_nat (n mod 10) < 10)%nat as Hlt.
  { pose proof (Z.mod_pos_bound n 10). lia. }
  destruct (Z.to_nat (n mod 10)) as [|[|[|[|[|[|[|[|[|[|k]]]]]]]]]]; try done. lia.
Qed.

Lemma os_path_join_data (d : datetime) :
  os_path_join "data" (strftime_Ymd d +:+ "_papers.json") = data_file_path d.
Proof.
  unfold data_file_path, strftime_Ymd, four_digits, two_digits.
  rewrite !app_String. unfold os_path_join.
  pose proof (decimal_digit_not_slash (year d / 100 / 10)) as Hc.
  destruct (decimal_digit (year d / 100 / 10)) as [[] [] [] [] [] [] [] []];
    try done; by specialize (Hc "").
Qed.

(** The run, stage by stage. *)
Lemma pull_hf_daily_run (w : World) (date : option string) (fs : gmap string (list Paper)) :
  pull_hf_daily w date (initial fs) =
  match requests_get w 0 (hf_papers_url w date) with
  | Raises e => (inl e, requesting (hf_papers_url w date) (initial fs))
  | Returns response =>
      if negb (status_code response =? 200)%Z
      then (inr (), requesting (hf_papers_url w date) (initial fs))
      else
        match harvest w no_papers (find_all_article (soup response)) (listed w date fs) with
        | (inl e, st) => (inl e, st)
        | (inr loc, st) =>
            match download_all w (papers loc) st with
            | (inl e, st') => (inl e, st')
            | (inr survivors, st') =>
                (inr (), writing (data_file_path (now_last w)) survivors (making "data" st'))
            end
        end
  end.
Proof.
  unfold pull_hf_daily. rewrite bind_run. unfold get at 1.
  change (length (requested (initial fs))) with 0%nat.
  fold (hf_papers_url w date).
  destruct (requests_get w 0 (hf_papers_url w date)) as [response|e]; [|done].
  destruct (negb _); [done|]. rewrite bind_run. unfold makedirs at 1.
  rewrite bind_run. fold (listed w date fs).
  destruct (harvest w no_papers _ _) as [[e|loc] st]; [done|].
  rewrite bind_run. destruct (download_all w (papers loc) st) as [[e|survivors] st']; [done|].
  rewrite bind_run. unfold makedirs at 1. by rewrite os_path_join_data.
Qed.

(** An exception in the loop ends the run before any download is submitted
    and before any file is written. *)
Lemma pull_hf_daily_aborts (w : World) (date : option string) (fs : gmap string (list Paper))
    (response : Response) (e : exn) (st : State) :
  requests_get w 0 (hf_papers_url w date) = Returns response →
  status_code response = 200%Z →
  harvest w no_papers (find_all_article (soup response)) (listed w date fs) = (inl e, st) →
  pull_hf_daily w date (initial fs) = (inl e, st) ∧ submitted st = [] ∧ files st = fs.
Proof.
  intros Hget Hok Hloop. rewrite pull_hf_daily_run, Hget, Hok, Hloop. split; [done|].
  pose proof (harvest_frame w no_papers (find_all_article (soup response)) (listed w date fs)) as Hf.
  rewrite Hloop in Hf. simpl in Hf. by destruct Hf as (_ & -> & ->).
Qed.

(** The loop stops at the first article whose turn raises. *)
Lemma harvest_raises (w : World) (pre post : list Article) (paper : Article)
    (loc : Locals) (st0 st st' : State) (e : exn) :
  harvest w no_papers pre st0 = (inr loc, st) →
  scrape w paper st = (inl e, st') →
  harvest w no_papers (pre ++ paper :: post) st0 = (inl e, st').
Proof.
  intros Hpre Hpaper. by rewrite harvest_app, Hpre, harvest_cons, visit_run, Hpaper.
Qed.

(** ** The listing request *)

(** C3, as the code has it: when the listing request returns a status other
    than 200, the run ends at once and normally; the listing request is the
    only request made, no directory is made, no download is submitted and
    the files are left as they were, so that no output file is written. *)
Theorem listing_unavailable_ends_run (w : World) (date : option string)
    (fs : gmap string (list Paper)) (response : Response) :
  requests_get w 0 (hf_papers_url w date) = Returns response →
  status_code response ≠ 200%Z →
  ∃ st, pull_hf_daily w date (initial fs) = (inr (), st) ∧
        requested st = [hf_papers_url w date] ∧ made_dirs st = [] ∧
        submitted st = [] ∧ files st = fs.
Proof.
  intros Hget Hstatus. rewrite pull_hf_daily_run, Hget.
  apply Z.eqb_neq in Hstatus as ->. by eexists.
Qed.

Lemma listing_unavailable_ends_run_witness :
  ∃ st, pull_hf_daily listing_down None (initial ∅) = (inr (), st) ∧
        requested st = ["https://huggingface.co/papers/date/2024-01-15"] ∧ made_dirs st = [] ∧
        submitted st = [] ∧ files st = ∅.
Proof.
  apply (listing_unavailable_ends_run listing_down None ∅ (status_page 500)).
  - reflexivity.
  - discriminate.
Defined.

(** C3, as the specification has it, fails: with a listing answered 500 and
    no file on disk before the run, the dated output file does not hold an
    empty list after the run, since it does not exist. *)
Lemma listing_down_writes_no_file :
  requests_get listing_down 0 (hf_papers_url listing_down None) = Returns (status_page 500) ∧
  ¬ (files (pull_hf_daily listing_down None (initial ∅)).2 !! data_file_path (now_last listing_down)
     = Some []).
Proof. split; [reflexivity|]. vm_compute. discriminate. Qed.

(** ** Articles without a link *)

(** C10: when the listing is retrieved and one of its articles has no
    anchor, or a first anchor without [href], the run ends with an
    exception, no download is submitted and no file is written; and when the
    articles before it went through, the exception is raised at that
    article ([AttributeError] without anchor, [TypeError] without [href])
    in the state the earlier articles left, nothing further being
    requested. *)
Theorem article_without_link_aborts (w : World) (date : option string)
    (fs : gmap string (list Paper)) (response : Response)
    (pre post : list Article) (paper : Article) :
  requests_get w 0 (hf_papers_url w date) = Returns response →
  status_code response = 200%Z →
  find_all_article (soup response) = pre ++ paper :: post →
  (a_ paper = None ∨ ∃ a, a_ paper = Some a ∧ attrs a !! "href" = None) →
  ∃ e st', pull_hf_daily w date (initial fs) = (inl e, st') ∧
           submitted st' = [] ∧ files st' = fs ∧
           ∀ loc st, harvest w no_papers pre (listed w date fs) = (inr loc, st) →
                     st' = st ∧ e = match a_ paper with Some _ => TypeError | None => AttributeError end.
Proof.
  intros Hget Hok Harticles Hbad.
  assert (∀ st, scrape w paper st = (inl (match a_ paper with Some _ => TypeError | None => AttributeError end), st))
    as Hpaper.
  { intros st. rewrite scrape_run. by destruct Hbad as [->|(a & -> & ->)]. }
  destruct (harvest w no_papers pre (listed w date fs)) as [[e|loc] st] eqn:Hpre.
  - exists e, st.
    destruct (pull_hf_daily_aborts w date fs response e st) as (-> & -> & ->); try done.
    by rewrite Harticles, harvest_app, Hpre.
  - eexists _, st.
    destruct (pull_hf_daily_aborts w date fs response
                (match a_ paper with Some _ => TypeError | None => AttributeError end) st) as (-> & -> & ->); try done.
    + rewrite Harticles. by eapply harvest_raises.
    + split_and!; try done. by intros ?? [= <- <-].
Qed.

Lemma article_without_link_aborts_witness :
  ∃ e st', pull_hf_daily bare_anchor None (initial ∅) = (inl e, st') ∧
           submitted st' = [] ∧ files st' = ∅ ∧
           ∀ loc st, harvest bare_anchor no_papers [anchor "/papers/2401.00001"]
                       (listed bare_anchor None ∅) = (inr loc, st) →
                     st' = st ∧ e = TypeError.
Proof.
  apply (article_without_link_aborts bare_anchor None ∅
           (listing_page [anchor "/papers/2401.00001";
                          {| a_ := Some {| attrs := ∅; text := "" |} |};
                          anchor "/papers/2401.00003"])
           [anchor "/papers/2401.00001"] [anchor "/papers/2401.00003"]
           {| a_ := Some {| attrs := ∅; text := "" |} |}).
  - reflexivity.
  - reflexivity.
  - reflexivity.
  - right. eexists. split; reflexivity.
Defined.

(** ** Detail pages without heading or paragraph *)

(** When the detail page of an article comes back with status 200 but
    lacks the heading or the paragraph, and the articles before it went
    through, the run ends with [AttributeError] at that article: nothing
    further is requested, no download is submitted and no file is
    written. *)
Theorem bare_detail_page_aborts (w : World) (date : option string)
    (fs : gmap string (list Paper)) (response content : Response)
    (pre post : list Article) (paper : Article) (a : Tag) (link : string)
    (loc : Locals) (st : State) :
  requests_get w 0 (hf_papers_url w date) = Returns response →
  status_code response = 200%Z →
  find_all_article (soup response) = pre ++ paper :: post →
  harvest w no_papers pre (listed w date fs) = (inr loc, st) →
  a_ paper = Some a → attrs a !! "href" = Some link →
  requests_get w (length (requested st)) (HF_BASE_URL +:+ link) = Returns content →
  status_code content = 200%Z →
  find_h1 (soup content) = None ∨ find_p (soup content) = None →
  pull_hf_daily w date (initial fs) =
    (inl AttributeError, requesting (HF_BASE_URL +:+ link) st) ∧
  submitted st = [] ∧ files st = fs.
Proof.
  intros Hget Hok Harticles Hpre Ha Hhref Hdetail Hok' Hbare.
  destruct (pull_hf_daily_aborts w date fs response AttributeError
              (requesting (HF_BASE_URL +:+ link) st)) as (-> & Hsub & Hfiles); try done.
  rewrite Harticles. eapply harvest_raises; [done|].
  rewrite scrape_run, Ha, Hhref, Hdetail, Hok'. simpl.
  destruct Hbare as [->| ->]; [done|]. by destruct (find_h1 _).
Qed.

Lemma bare_detail_page_aborts_witness :
  pull_hf_daily bare_detail None (initial ∅) =
    (inl AttributeError,
     requesting (HF_BASE_URL +:+ "/papers/2401.00001") (listed bare_detail None ∅)) ∧
  submitted (listed bare_detail None ∅) = [] ∧ files (listed bare_detail None ∅) = ∅.
Proof.
  apply (bare_detail_page_aborts bare_detail None ∅
           (listing_page [anchor "/papers/2401.00001"; anchor "/papers/2401.00002"])
           (status_page 200) [] [anchor "/papers/2401.00002"] (anchor "/papers/2401.00001")
           {| attrs := {[ "href" := "/papers/2401.00001" ]}; text := "" |}
           "/papers/2401.00001" no_papers).
  - reflexivity.
  - reflexivity.
  - reflexivity.
  - reflexivity.
  - reflexivity.
  - reflexivity.
  - reflexivity.
  - reflexivity.
  - by left.
Defined.

(** C2 does not hold of the code: the detail page of the first of two
    articles is retrieved with status 200 and has no heading; where the
    other failures of an entry (lines 93-95, 101-105, 108-110) are skipped,
    this entry is not: lines 98-99 read [.text] of [None],
    [AttributeError] leaves the run, and the second article is never
    requested. *)
Lemma bare_detail_page_not_skipped :
  requests_get bare_detail 1 (HF_BASE_URL +:+ "/papers/2401.00001") = Returns (status_page 200) ∧
  find_h1 (soup (status_page 200)) = None ∧
  (pull_hf_daily bare_detail None (initial ∅)).1 = inl AttributeError ∧
  requested (pull_hf_daily bare_detail None (initial ∅)).2 =
    ["https://huggingface.co/papers/date/2024-01-15"; "https://huggingface.co/papers/2401.00001"].
Proof. by vm_compute. Qed.

(** ** Detail fetch and duplicate check *)

(** C4, as the code has it: an article that has a link triggers one detail
    request, made before the identifier is extracted and whatever the seen
    set holds; when its identifier is already in the seen set and the turn
    completes, the locals come back unchanged: the duplicate is discarded
    after its detail page was fetched. *)
Theorem detail_fetch_precedes_duplicate_check (w : World) (loc : Locals) (paper : Article)
    (st : State) (a : Tag) (link : string) :
  a_ paper = Some a → attrs a !! "href" = Some link →
  requested (visit w loc paper st).2 = requested st ++ [HF_BASE_URL +:+ link] ∧
  ∀ id loc' st',
    (arxiv_id_match w link ≫= λ m, re.group m 1) = Some id → id ∈ seen_ids loc →
    visit w loc paper st = (inr loc', st') → loc' = loc.
Proof.
  intros Ha Hhref. rewrite visit_run, scrape_run, Ha, Hhref. cbn zeta.
  destruct (requests_get w _ _) as [content|e]; [|by split].
  destruct (negb _); [split; [done|]; by intros ????? [= <- <-]|].
  destruct (find_h1 _) as [h1|]; [|by split].
  destruct (find_p _) as [p|]; [|by split].
  split; [done|]. intros id loc' st' -> Hin [= <- <-]. simpl.
  unfold keep. simpl. by rewrite bool_decide_true.
Qed.

Lemma detail_fetch_precedes_duplicate_check_witness :
  let first := {| scraped_title := "First"; scraped_abstract := "A1";
                  scraped_arxiv_id := "2401.00001";
                  scraped_hf_paper_url := "https://huggingface.co/papers/2401.00001" |} in
  let second := {| scraped_title := "Second"; scraped_abstract := "A2";
                   scraped_arxiv_id := "2401.00002";
                   scraped_hf_paper_url := "https://huggingface.co/papers/2401.00002" |} in
  let loc := {| papers := [make_paper first; make_paper second];
                seen_ids := {[ "2401.00002" ]} ∪ ({[ "2401.00001" ]} ∪ ∅) |} in
  let st := requesting "https://huggingface.co/papers/2401.00002"
              (requesting "https://huggingface.co/papers/2401.00001"
                 (listed three_articles None ∅)) in
  let paper := anchor "/papers/2401.00001" in
  (* the third turn of the loop starts from [loc] and [st] *)
  harvest three_articles no_papers [anchor "/papers/2401.00001"; anchor "/papers/2401.00002"]
    (listed three_articles None ∅) = (inr loc, st) ∧
  (* its identifier was seen, and the turn completes *)
  (arxiv_id_match three_articles "/papers/2401.00001" ≫= λ m, re.group m 1)
    = Some "2401.00001" ∧
  "2401.00001" ∈ seen_ids loc ∧
  visit three_articles loc paper st =
    (inr loc, requesting "https://huggingface.co/papers/2401.00001" st) ∧
  (* what the theorem gives there *)
  requested (visit three_articles loc paper st).2 =
    requested st ++ [HF_BASE_URL +:+ "/papers/2401.00001"] ∧
  ∀ loc' st', visit three_articles loc paper st = (inr loc', st') → loc' = loc.
Proof.
  intros first second loc st paper.
  assert ("2401.00001" ∈ seen_ids loc) as Hseen.
  { apply elem_of_union. right. apply elem_of_union. left. by apply elem_of_singleton. }
  split; [by vm_compute|]. split; [reflexivity|]. split; [exact Hseen|].
  split; [by vm_compute|].
  destruct (detail_fetch_precedes_duplicate_check three_articles loc paper st
              {| attrs := {[ "href" := "/papers/2401.00001" ]}; text := "" |}
              "/papers/2401.00001" eq_refl eq_refl) as [Hrequested Hsame].
  split; [exact Hrequested|].
  intros loc' st' Hvisit. exact (Hsame "2401.00001" loc' st' eq_refl Hseen Hvisit).
Defined.

(** C4, as the specification has it, fails: the third article repeats the
    identifier of the first, and its detail page is requested all the same
    (fourth request of the run); only two records are assembled. *)
Lemma duplicate_entry_is_fetched :
  requested (pull_hf_daily three_articles None (initial ∅)).2 =
    ["https://huggingface.co/papers/date/2024-01-15";
     "https://huggingface.co/papers/2401.00001";
     "https://huggingface.co/papers/2401.00002";
     "https://huggingface.co/papers/2401.00001"] ∧
  submitted (pull_hf_daily three_articles None (initial ∅)).2 =
    [("https://arxiv.org/pdf/2401.00001", "temp_pdfs/2401.00001.pdf");
     ("https://arxiv.org/pdf/2401.00002", "temp_pdfs/2401.00002.pdf")].
Proof. by vm_compute. Qed.

(** ** The name of the output file *)

(** C9: a run for the date [D] that retrieves the listing and returns
    requested the listing of [D] and wrote exactly one file, named after the
    day on which the run reached line 138, whatever [D] is. *)
Theorem output_named_after_run_day (w : World) (D : string) (fs : gmap string (list Paper))
    (response : Response) (st : State) :
  requests_get w 0 (HF_PAPERS_URL +:+ "/" +:+ D) = Returns response →
  status_code response = 200%Z →
  pull_hf_daily w (Some D) (initial fs) = (inr (), st) →
  head (requested st) = Some (HF_PAPERS_URL +:+ "/" +:+ D) ∧
  ∃ survivors,
    files st = <[ "data/" +:+ strftime_Ymd (now_last w) +:+ "_papers.json" := survivors ]> fs.
Proof.
  intros Hget Hok. rewrite pull_hf_daily_run.
  change (hf_papers_url w (Some D)) with (HF_PAPERS_URL +:+ "/" +:+ D).
  rewrite Hget, Hok. change (negb (200 =? 200)%Z) with false. cbv iota.
  pose proof (harvest_frame w no_papers (find_all_article (soup response))
                (listed w (Some D) fs)) as Hf.
  destruct (harvest_requested w no_papers (find_all_article (soup response))
              (listed w (Some D) fs)) as [urls Hurls].
  destruct (harvest w no_papers _ _) as [[e|loc] st1]; [done|].
  rewrite download_all_run. intros [= <-]. simpl in *.
  destruct Hf as (_ & _ & ->). rewrite Hurls. split; [done|by eexists].
Qed.

Lemma output_named_after_run_day_witness :
  head (requested (pull_hf_daily three_articles (Some "2023-12-25") (initial ∅)).2)
    = Some (HF_PAPERS_URL +:+ "/" +:+ "2023-12-25") ∧
  ∃ survivors,
    files (pull_hf_daily three_articles (Some "2023-12-25") (initial ∅)).2 =
      <[ "data/" +:+ strftime_Ymd (now_last three_articles) +:+ "_papers.json" := survivors ]> ∅.
Proof.
  apply (output_named_after_run_day three_articles "2023-12-25" ∅
           (listing_page [anchor "/papers/2401.00001"; anchor "/papers/2401.00002";
                          anchor "/papers/2401.00001"])).
  - reflexivity.
  - reflexivity.
  - by vm_compute.
Defined.

(** ** Identifiers are unique, the first scraped record wins *)

(** C5: when the loop completes, the records it assembled have pairwise
    distinct identifiers; and, [ss] being what lines 89-105 yielded for
    each article in document order, the records assembled under an
    identifier are the first record yielded under it and nothing else:
    exactly one when some article yields the identifier, later ones being
    dropped. *)
Theorem first_scraped_record_is_kept (w : World) (articles : list Article)
    (st st' : State) (loc : Locals) :
  harvest w no_papers articles st = (inr loc, st') →
  ∃ ss, scrape_all w articles st = (inr ss, st') ∧
        NoDup (arxiv_id <$> papers loc) ∧
        ∀ id, with_id id (papers loc) =
              take 1 (with_id id (make_paper <$> omap (λ s, s) ss)).
Proof.
  rewrite harvest_scrape_all.
  destruct (scrape_all w articles st) as [[e|ss] st1]; [done|]. intros [= <- <-].
  exists ss. split_and!; [done| |].
  - apply (keep_all_consistent no_papers ss no_papers_consistent).
  - intros id. by rewrite (keep_all_first no_papers ss id no_papers_consistent).
Qed.

Lemma first_scraped_record_is_kept_witness :
  let first := {| scraped_title := "First"; scraped_abstract := "A1";
                  scraped_arxiv_id := "2401.00001";
                  scraped_hf_paper_url := "https://huggingface.co/papers/2401.00001" |} in
  let second := {| scraped_title := "Second"; scraped_abstract := "A2";
                   scraped_arxiv_id := "2401.00002";
                   scraped_hf_paper_url := "https://huggingface.co/papers/2401.00002" |} in
  let loc := {| papers := [make_paper first; make_paper second];
                seen_ids := {[ "2401.00002" ]} ∪ ({[ "2401.00001" ]} ∪ ∅) |} in
  let articles := [anchor "/papers/2401.00001"; anchor "/papers/2401.00002";
                   anchor "/papers/2401.00001"] in
  let st' := requesting "https://huggingface.co/papers/2401.00001"
               (requesting "https://huggingface.co/papers/2401.00002"
                  (requesting "https://huggingface.co/papers/2401.00001"
                     (listed three_articles None ∅))) in
  ∃ ss, scrape_all three_articles articles (listed three_articles None ∅) = (inr ss, st') ∧
        NoDup (arxiv_id <$> papers loc) ∧
        ∀ id, with_id id (papers loc) =
              take 1 (with_id id (make_paper <$> omap (λ s, s) ss)).
Proof.
  intros first second loc articles st'.
  apply (first_scraped_record_is_kept three_articles articles
           (listed three_articles None ∅) st' loc).
  by vm_compute.
Defined.

(** ** The survivors of the download stage *)

(** C1: whatever the listing and the detail pages were, and in whatever
    order the futures complete, the records left after the download stage
    form a subsequence of the records assembled by the loop, in the same
    order, and a record is among them exactly when its own download task
    returned success. *)
Theorem download_stage_keeps_successes (w : World) (articles : list Article)
    (st st' : State) (loc : Locals) :
  harvest w no_papers articles st = (inr loc, st') →
  as_completed w ≡ₚ seq 0 (length (papers loc)) →
  ∃ survivors st'',
    download_all w (papers loc) st' = (inr survivors, st'') ∧
    survivors `sublist_of` papers loc ∧
    ∀ n paper, papers loc !! n = Some paper →
      (paper ∈ survivors ↔ (download_pdf w n (arxiv_link paper) (pdf_path paper)).2 = true).
Proof.
  intros [_ Hlinks]%harvest_distinct Hperm.
  destruct (download_all_distinct w (papers loc) st' Hlinks Hperm) as (survivors & ? & ? & ?).
  by exists survivors, (submitting ((λ paper, (arxiv_link paper, pdf_path paper)) <$> papers loc) st').
Qed.

Lemma download_stage_keeps_successes_witness :
  let first := {| scraped_title := "First"; scraped_abstract := "A1";
                  scraped_arxiv_id := "2401.00001";
                  scraped_hf_paper_url := "https://huggingface.co/papers/2401.00001" |} in
  let second := {| scraped_title := "Second"; scraped_abstract := "A2";
                   scraped_arxiv_id := "2401.00002";
                   scraped_hf_paper_url := "https://huggingface.co/papers/2401.00002" |} in
  let loc := {| papers := [make_paper first; make_paper second];
                seen_ids := {[ "2401.00002" ]} ∪ ({[ "2401.00001" ]} ∪ ∅) |} in
  let st' := requesting "https://huggingface.co/papers/2401.00001"
               (requesting "https://huggingface.co/papers/2401.00002"
                  (requesting "https://huggingface.co/papers/2401.00001"
                     (listed three_articles None ∅))) in
  ∃ survivors st'',
    download_all three_articles (papers loc) st' = (inr survivors, st'') ∧
    survivors `sublist_of` papers loc ∧
    ∀ n paper, papers loc !! n = Some paper →
      (paper ∈ survivors ↔
       (download_pdf three_articles n (arxiv_link paper) (pdf_path paper)).2 = true).
Proof.
  intros first second loc st'.
  apply (download_stage_keeps_successes three_articles
           [anchor "/papers/2401.00001"; anchor "/papers/2401.00002";
            anchor "/papers/2401.00001"]
           (listed three_articles None ∅) st' loc).
  - by vm_compute.
  - apply perm_swap.
Defined.

(** ** The key extractor *)

(** C6: digits being the characters that [\d] matches, on a link in which
    [/papers/] followed by digits, a dot and digits occurs, the extractor
    returns the digits, dot and digits of the first occurrence, with all
    the digits that follow the dot; such a first occurrence exists as soon
    as there is any occurrence; on a link without occurrence the extractor
    returns [None], and the loop, which reaches the extractor once the
    detail page was retrieved and read, goes on with the next article, the
    locals unchanged. *)
Theorem key_extractor_first_occurrence (w : World) (link : string) (st : State) :
  (∀ pre d1 d2 post,
     first_occurrence w link pre d1 d2 post →
     extract_arxiv_id w link st = (inr (Some (d1 +:+ "." +:+ d2)), st)) ∧
  (∀ pre d1 d2 post,
     occurrence w link pre d1 d2 post →
     ∃ pre' d1' d2' post', first_occurrence w link pre' d1' d2' post') ∧
  ((∀ pre d1 d2 post, ¬ occurrence w link pre d1 d2 post) →
   extract_arxiv_id w link st = (inr None, st) ∧
   ∀ loc paper rest a content h1 p,
     a_ paper = Some a → attrs a !! "href" = Some link →
     requests_get w (length (requested st)) (HF_BASE_URL +:+ link) = Returns content →
     status_code content = 200%Z →
     find_h1 (soup content) = Some h1 → find_p (soup content) = Some p →
     harvest w loc (paper :: rest) st =
     harvest w loc rest (requesting (HF_BASE_URL +:+ link) st)).
Proof.
  split_and!.
  - intros pre d1 d2 post Hfirst. rewrite extract_arxiv_id_run.
    destruct (occurrence_search w link pre d1 d2 post) as [m Hm]; [apply Hfirst|].
    destruct (search_first_occurrence w link m Hm)
      as (pre' & d1' & d2' & post' & Hfirst' & Hg).
    destruct (first_occurrence_unique _ _ _ _ _ _ _ _ _ _ Hfirst Hfirst') as (_ & -> & -> & _).
    rewrite Hm. cbn [mbind option_bind]. by rewrite Hg.
  - intros pre d1 d2 post [m Hm]%occurrence_search.
    destruct (search_first_occurrence w link m Hm) as (pre' & d1' & d2' & post' & Hfirst' & _).
    eauto.
  - intros Hnone.
    assert (arxiv_id_match w link = None) as Hm.
    { destruct (arxiv_id_match w link) as [m|] eqn:Hm; [|done].
      destruct (search_first_occurrence w link m Hm)
        as (pre & d1 & d2 & post & [Hocc _] & _).
      by destruct (Hnone pre d1 d2 post). }
    rewrite extract_arxiv_id_run, Hm. split; [done|].
    intros loc paper rest a content h1 p Ha Hhref Hget Hok Hh1 Hp.
    by rewrite harvest_cons, visit_run, scrape_run, Ha, Hhref, Hget, Hok, Hh1, Hp, Hm.
Qed.

Lemma key_extractor_first_occurrence_witness :
  (* a link with two occurrences, the first in Arabic-Indic and fullwidth digits *)
  (first_occurrence three_articles "x/papers/١٢.3４v2/papers/7.7" "x" "١٢" "3４" "v2/papers/7.7" ∧
   extract_arxiv_id three_articles "x/papers/١٢.3４v2/papers/7.7" (initial ∅)
     = (inr (Some ("١٢" +:+ "." +:+ "3４")), initial ∅)) ∧
  (* its second occurrence *)
  (occurrence three_articles "x/papers/١٢.3４v2/papers/7.7" "x/papers/١٢.3４v2" "7" "7" "" ∧
   ∃ pre' d1' d2' post',
     first_occurrence three_articles "x/papers/١٢.3４v2/papers/7.7" pre' d1' d2' post') ∧
  (* a link without occurrence: the first article of [no_identifier] *)
  ((∀ pre d1 d2 post, ¬ occurrence no_identifier "/papers/trending" pre d1 d2 post) ∧
   extract_arxiv_id no_identifier "/papers/trending" (listed no_identifier None ∅)
     = (inr None, listed no_identifier None ∅) ∧
   harvest no_identifier no_papers [anchor "/papers/trending"; anchor "/papers/2401.00002"]
     (listed no_identifier None ∅) =
   harvest no_identifier no_papers [anchor "/papers/2401.00002"]
     (requesting (HF_BASE_URL +:+ "/papers/trending") (listed no_identifier None ∅))).
Proof.
  assert (first_occurrence three_articles "x/papers/١٢.3４v2/papers/7.7"
            "x" "١٢" "3４" "v2/papers/7.7") as Hfirst.
  { split; [|split].
    - unfold occurrence. split; [reflexivity|]. split; [discriminate|].
      split; [discriminate|]. split; reflexivity.
    - reflexivity.
    - intros [|c pre'] d1' d2' post' [Heq _]; [discriminate Heq|]. simpl. lia. }
  assert (occurrence three_articles "x/papers/١٢.3４v2/papers/7.7"
            "x/papers/١٢.3４v2" "7" "7" "") as Hsecond.
  { unfold occurrence. split; [reflexivity|]. split; [discriminate|].
    split; [discriminate|]. split; reflexivity. }
  assert (∀ pre d1 d2 post, ¬ occurrence no_identifier "/papers/trending" pre d1 d2 post)
    as Hnone.
  { intros pre d1 d2 post [m Hm]%occurrence_search. discriminate Hm. }
  split; [|split].
  - split; [exact Hfirst|].
    exact (proj1 (key_extractor_first_occurrence three_articles
                    "x/papers/١٢.3４v2/papers/7.7" (initial ∅))
             "x" "١٢" "3４" "v2/papers/7.7" Hfirst).
  - split; [exact Hsecond|].
    exact (proj1 (proj2 (key_extractor_first_occurrence three_articles
                           "x/papers/١٢.3４v2/papers/7.7" (initial ∅)))
             "x/papers/١٢.3４v2" "7" "7" "" Hsecond).
  - split; [exact Hnone|].
    destruct (proj2 (proj2 (key_extractor_first_occurrence no_identifier
                              "/papers/trending" (listed no_identifier None ∅))) Hnone)
      as [Hextract Hskip].
    split; [exact Hextract|].
    exact (Hskip no_papers (anchor "/papers/trending") [anchor "/papers/2401.00002"]
             {| attrs := {[ "href" := "/papers/trending" ]}; text := "" |}
             (detail_page "Some title" "Some abstract")
             {| attrs := ∅; text := "Some title" |} {| attrs := ∅; text := "Some abstract" |}
             eq_refl eq_refl eq_refl eq_refl eq_refl eq_refl).
Defined.

(** C7: the extractor never raises and returns the state it was given; its
    result is the same from any two states, and the same again when it is
    run a second time on the same link. *)
Theorem key_extractor_pure (w : World) (link : string) (st1 st2 : State) :
  ∃ r, extract_arxiv_id w link st1 = (inr r, st1) ∧
       extract_arxiv_id w link st2 = (inr r, st2) ∧
       (r1 ← extract_arxiv_id w link; r2 ← extract_arxiv_id w link; mret (r1, r2)) st1
         = (inr (r, r), st1).
Proof.
  exists (arxiv_id_match w link ≫= λ m, re.group m 1).
  split_and!; [apply extract_arxiv_id_run..|].
  rewrite bind_run, extract_arxiv_id_run, bind_run, extract_arxiv_id_run. reflexivity.
Qed.

(** * Further properties of [pull_hf_daily.py] *)

(** ** Requests that raise, pages that are not available *)

(** [requests.get] is never guarded: an exception raised by the listing
    request, or by the detail request of an article reached by the loop,
    ends the run with that exception; in the second case no download was
    submitted and no file written. *)
Theorem request_exception_ends_run (w : World) (date : option string)
    (fs : gmap string (list Paper)) (e : exn) :
  (requests_get w 0 (hf_papers_url w date) = Raises e →
   pull_hf_daily w date (initial fs) = (inl e, requesting (hf_papers_url w date) (initial fs))) ∧
  ∀ response pre paper post loc st link,
    requests_get w 0 (hf_papers_url w date) = Returns response →
    status_code response = 200%Z →
    find_all_article (soup response) = pre ++ paper :: post →
    harvest w no_papers pre (listed w date fs) = (inr loc, st) →
    href paper = Some link →
    requests_get w (length (requested st)) (HF_BASE_URL +:+ link) = Raises e →
    pull_hf_daily w date (initial fs) = (inl e, requesting (HF_BASE_URL +:+ link) st) ∧
    submitted st = [] ∧ files st = fs.
Proof.
  split.
  - intros Hget. by rewrite pull_hf_daily_run, Hget.
  - intros response pre paper post loc st link Hget Hok Harticles Hpre Hhref Hdetail.
    destruct (pull_hf_daily_aborts w date fs response e
                (requesting (HF_BASE_URL +:+ link) st)) as (-> & Hsub & Hfiles); try done.
    rewrite Harticles. eapply harvest_raises; [done|].
    unfold href in Hhref. rewrite scrape_run.
    destruct (a_ paper) as [a|]; [|done]. simpl in Hhref. by rewrite Hhref, Hdetail.
Qed.

Lemma request_exception_ends_run_witness :
  pull_hf_daily listing_unreachable None (initial ∅) =
    (inl ConnectionError,
     requesting (hf_papers_url listing_unreachable None) (initial ∅)) ∧
  pull_hf_daily detail_timeout None (initial ∅) =
    (inl Timeout, requesting (HF_BASE_URL +:+ "/papers/2401.00001") (listed detail_timeout None ∅)) ∧
  submitted (listed detail_timeout None ∅) = [] ∧ files (listed detail_timeout None ∅) = ∅.
Proof.
  split.
  - apply (proj1 (request_exception_ends_run listing_unreachable None ∅ ConnectionError)).
    reflexivity.
  - apply (proj2 (request_exception_ends_run detail_timeout None ∅ Timeout)
             (listing_page [anchor "/papers/2401.00001"; anchor "/papers/2401.00002"])
             [] (anchor "/papers/2401.00001") [anchor "/papers/2401.00002"] no_papers
             (listed detail_timeout None ∅) "/papers/2401.00001"); reflexivity.
Defined.

(** A detail page answered with a status other than 200 is skipped: its
    content is not read, the locals are unchanged and the loop goes on with
    the next article. *)
Theorem unavailable_detail_page_is_skipped (w : World) (loc : Locals) (paper : Article)
    (rest : list Article) (st : State) (link : string) (content : Response) :
  href paper = Some link →
  requests_get w (length (requested st)) (HF_BASE_URL +:+ link) = Returns content →
  status_code content ≠ 200%Z →
  harvest w loc (paper :: rest) st = harvest w loc rest (requesting (HF_BASE_URL +:+ link) st).
Proof.
  intros Hhref Hget Hstatus. unfold href in Hhref.
  rewrite harvest_cons, visit_run, scrape_run.
  destruct (a_ paper) as [a|]; [|done]. simpl in Hhref. rewrite Hhref, Hget.
  by apply Z.eqb_neq in Hstatus as ->.
Qed.

Lemma unavailable_detail_page_is_skipped_witness :
  harvest detail_not_found no_papers
    [anchor "/papers/2401.00001"; anchor "/papers/2401.00002"] (listed detail_not_found None ∅) =
  harvest detail_not_found no_papers [anchor "/papers/2401.00002"]
    (requesting (HF_BASE_URL +:+ "/papers/2401.00001") (listed detail_not_found None ∅)).
Proof.
  apply (unavailable_detail_page_is_skipped detail_not_found no_papers
           (anchor "/papers/2401.00001") [anchor "/papers/2401.00002"]
           (listed detail_not_found None ∅) "/papers/2401.00001" (status_page 404)).
  - reflexivity.
  - reflexivity.
  - discriminate.
Defined.

(** ** The requests of a completed loop *)

Lemma scrape_returns_requested (w : World) (paper : Article) (st st' : State)
    (s : option Scraped) :
  scrape w paper st = (inr s, st') →
  ∃ link, href paper = Some link ∧ st' = requesting (HF_BASE_URL +:+ link) st.
Proof.
  rewrite scrape_run. unfold href.
  destruct (a_ paper) as [a|]; [|done]. simpl.
  destruct (attrs a !! "href") as [link|]; [|done]. cbn zeta.
  intros Hrun. exists link. split; [done|].
  repeat case_match; by simplify_eq.
Qed.

(** When the loop completes, every article had a link and its detail page
    was requested exactly once, in document order, duplicates and skipped
    articles included. *)
Theorem one_detail_request_per_article (w : World) (loc loc' : Locals)
    (articles : list Article) (st st' : State) :
  harvest w loc articles st = (inr loc', st') →
  ∃ links, Forall2 (λ paper link, href paper = Some link) articles links ∧
           requested st' = requested st ++ (String.app HF_BASE_URL <$> links).
Proof.
  revert loc st. induction articles as [|paper rest IH]; intros loc st.
  - intros [= <- <-]. exists []. split; [constructor|]. by rewrite app_nil_r.
  - rewrite harvest_cons, visit_run.
    destruct (scrape w paper st) as [[e|s] st1] eqn:Hs; [done|].
    apply scrape_returns_requested in Hs as (link & Hlink & ->).
    intros (links & Hlinks & ->)%IH. exists (link :: links). split; [by constructor|].
    simpl. by rewrite <-app_assoc.
Qed.

Lemma one_detail_request_per_article_witness :
  ∃ links,
    Forall2 (λ paper link, href paper = Some link)
      [anchor "/papers/2401.00001"; anchor "/papers/2401.00002"; anchor "/papers/2401.00001"]
      links ∧
    requested (harvest three_articles no_papers
                 [anchor "/papers/2401.00001"; anchor "/papers/2401.00002";
                  anchor "/papers/2401.00001"] (listed three_articles None ∅)).2 =
      requested (listed three_articles None ∅) ++ (String.app HF_BASE_URL <$> links).
Proof.
  eapply (one_detail_request_per_article three_articles no_papers).
  by vm_compute.
Defined.

(** ** The records that the loop assembles *)

(** A run of the class starts with a character of the class. *)
Lemma all_begins (cls : N → bool) (d r : string) :
  all cls d = true → d ≠ "" → begins cls (d +:+ r) = true.
Proof.
  intros Hd Hne. destruct (span_longer cls d r Hd) as [H1 _].
  destruct (begins cls (d +:+ r)) eqn:Hb; [done|].
  apply span_empty in Hb. rewrite Hb in H1. destruct d; [done|].
  by rewrite app_String in H1.
Qed.

Lemma os_path_join_temp_pdfs (w : World) (id : string) :
  dotted_digits w id →
  os_path_join "temp_pdfs" (id +:+ ".pdf") = "temp_pdfs/" +:+ id +:+ ".pdf".
Proof.
  intros (d1 & d2 & -> & Hn1 & _ & Hd1 & _).
  pose proof (all_begins (digit w) d1 ("." +:+ d2 +:+ ".pdf") Hd1 Hn1) as Hb.
  rewrite !app_assoc_str.
  destruct (d1 +:+ "." +:+ d2 +:+ ".pdf") as [|c s]; [done|].
  unfold os_path_join.
  destruct c as [[] [] [] [] [] [] [] []]; try done.
Qed.

(** What lines 89-105 yield carries an identifier read off the link of the
    article, and the address of its detail page. *)
Lemma scrape_yields (w : World) (paper : Article) (st st' : State) (s : Scraped) :
  scrape w paper st = (inr (Some s), st') →
  ∃ link pre d1 d2 post,
    href paper = Some link ∧ first_occurrence w link pre d1 d2 post ∧
    scraped_arxiv_id s = d1 +:+ "." +:+ d2 ∧
    scraped_hf_paper_url s = HF_BASE_URL +:+ link.
Proof.
  rewrite scrape_run. unfold href.
  destruct (a_ paper) as [a|]; [|done]. cbn [mbind option_bind].
  destruct (attrs a !! "href") as [link|]; [|done]. cbn zeta.
  destruct (requests_get w _ _) as [content|e]; [|done].
  destruct (negb _); [done|].
  destruct (find_h1 _) as [h1|]; [|done]. destruct (find_p _) as [p|]; [|done].
  destruct (arxiv_id_match w link) as [m|] eqn:Hm; [|done].
  destruct (search_first_occurrence w link m Hm) as (pre & d1 & d2 & post & Hfirst & Hg).
  cbn [mbind option_bind]. rewrite Hg. intros [= <- <-].
  by exists link, pre, d1, d2, post.
Qed.

Lemma scrape_all_yields (w : World) (articles : list Article) (st st' : State)
    (ss : list (option Scraped)) (s : Scraped) :
  scrape_all w articles st = (inr ss, st') → Some s ∈ ss →
  ∃ paper link pre d1 d2 post,
    paper ∈ articles ∧ href paper = Some link ∧ first_occurrence w link pre d1 d2 post ∧
    scraped_arxiv_id s = d1 +:+ "." +:+ d2 ∧
    scraped_hf_paper_url s = HF_BASE_URL +:+ link.
Proof.
  revert st ss. induction articles as [|paper rest IH]; intros st ss.
  - intros [= <- <-] Hin. by apply elem_of_nil in Hin.
  - cbn [scrape_all]. rewrite bind_run.
    destruct (scrape w paper st) as [[e|s1] st1] eqn:Hs1; [done|]. rewrite bind_run.
    destruct (scrape_all w rest st1) as [[e|ss1] st2] eqn:Hrest; [done|].
    intros [= <- <-] [Hin|Hin]%elem_of_cons.
    + subst s1. apply scrape_yields in Hs1 as (link & pre & d1 & d2 & post & ?).
      exists paper, link, pre, d1, d2, post. split; [by left|done].
    + destruct (IH _ _ Hrest Hin) as (paper' & link & pre & d1 & d2 & post & ? & ?).
      exists paper', link, pre, d1, d2, post. split; [by right|done].
Qed.

Lemma keep_all_from (loc : Locals) (ss : list (option Scraped)) (paper : Paper) :
  paper ∈ papers (foldl keep_if_any loc ss) →
  paper ∈ papers loc ∨ ∃ s, Some s ∈ ss ∧ paper = make_paper s.
Proof.
  revert loc. induction ss as [|[s|] ss IH]; intros loc; simpl.
  - by left.
  - intros [Hin|(s' & Hin & ->)]%IH.
    + unfold keep in Hin. case_bool_decide; [by left|]. simpl in Hin.
      apply elem_of_app in Hin as [Hin|Hin%list_elem_of_singleton]; [by left|].
      right. exists s. split; [by left|done].
    + right. exists s'. split; [by right|done].
  - intros [Hin|(s' & Hin & ->)]%IH; [by left|].
    right. exists s'. split; [by right|done].
Qed.

(** Every record assembled by the loop is well formed: its identifier is
    made of digits, a dot and digits, and is the first such occurrence
    after [/papers/] in the link of one of the articles; its detail address
    is the base address followed by that link; its document link and its
    destination are built from the identifier, the destination lying
    inside [temp_pdfs]. *)
Theorem assembled_records_are_well_formed (w : World) (articles : list Article)
    (st st' : State) (loc : Locals) (record : Paper) :
  harvest w no_papers articles st = (inr loc, st') →
  record ∈ papers loc →
  dotted_digits w (arxiv_id record) ∧
  arxiv_link record = "https://arxiv.org/pdf/" +:+ arxiv_id record ∧
  pdf_path record = "temp_pdfs/" +:+ arxiv_id record +:+ ".pdf" ∧
  ∃ paper link pre d1 d2 post,
    paper ∈ articles ∧ href paper = Some link ∧ first_occurrence w link pre d1 d2 post ∧
    arxiv_id record = d1 +:+ "." +:+ d2 ∧ hf_link record = HF_BASE_URL +:+ link.
Proof.
  rewrite harvest_scrape_all.
  destruct (scrape_all w articles st) as [[e|ss] st1] eqn:Hss; [done|]. intros [= <- <-] Hin.
  apply keep_all_from in Hin as [Hin|(s & Hin & ->)]; [by apply elem_of_nil in Hin|].
  destruct (scrape_all_yields _ _ _ _ _ _ Hss Hin)
    as (paper & link & pre & d1 & d2 & post & Hpaper & Hlink & Hfirst & Hid & Hurl).
  assert (dotted_digits w (arxiv_id (make_paper s))) as Hdotted.
  { exists d1, d2. destruct Hfirst as [(_ & ? & ? & ? & ?) _]. by split_and!. }
  split_and!; [done|done| |].
  - by apply (os_path_join_temp_pdfs w).
  - by exists paper, link, pre, d1, d2, post.
Qed.

Lemma assembled_records_are_well_formed_witness :
  let first := {| scraped_title := "First"; scraped_abstract := "A1";
                  scraped_arxiv_id := "2401.00001";
                  scraped_hf_paper_url := "https://huggingface.co/papers/2401.00001" |} in
  let articles := [anchor "/papers/2401.00001"; anchor "/papers/2401.00002";
                   anchor "/papers/2401.00001"] in
  dotted_digits three_articles (arxiv_id (make_paper first)) ∧
  arxiv_link (make_paper first) = "https://arxiv.org/pdf/" +:+ arxiv_id (make_paper first) ∧
  pdf_path (make_paper first) = "temp_pdfs/" +:+ arxiv_id (make_paper first) +:+ ".pdf" ∧
  ∃ paper link pre d1 d2 post,
    paper ∈ articles ∧ href paper = Some link ∧ first_occurrence three_articles link pre d1 d2 post ∧
    arxiv_id (make_paper first) = d1 +:+ "." +:+ d2 ∧
    hf_link (make_paper first) = HF_BASE_URL +:+ link.
Proof.
  intros first articles.
  eapply (assembled_records_are_well_formed three_articles articles
            (listed three_articles None ∅)).
  - by vm_compute.
  - by left.
Defined.

Lemma keep_all_sublist (loc : Locals) (ss : list (option Scraped)) :
  papers (foldl keep_if_any loc ss) `sublist_of`
  papers loc ++ (make_paper <$> omap (λ s, s) ss).
Proof.
  revert loc. induction ss as [|[s|] ss IH]; intros loc; simpl.
  - by rewrite app_nil_r.
  - etrans; [apply IH|]. unfold keep. case_bool_decide; simpl.
    + apply sublist_app; [done|]. by apply sublist_cons.
    + by rewrite <-app_assoc.
  - apply IH.
Qed.

(** The assembled records follow document order: they are what the
    articles yielded, in that order, with some left out. *)
Theorem assembled_in_document_order (w : World) (articles : list Article)
    (st st' : State) (loc : Locals) :
  harvest w no_papers articles st = (inr loc, st') →
  ∃ ss, scrape_all w articles st = (inr ss, st') ∧
        length ss = length articles ∧
        papers loc `sublist_of` (make_paper <$> omap (λ s, s) ss).
Proof.
  rewrite harvest_scrape_all.
  destruct (scrape_all w articles st) as [[e|ss] st1] eqn:Hss; [done|]. intros [= <- <-].
  exists ss. split_and!; [done| |apply (keep_all_sublist no_papers)].
  clear -Hss. revert st ss Hss. induction articles as [|paper rest IH]; intros st ss.
  - by intros [= <- <-].
  - cbn [scrape_all]. rewrite bind_run.
    destruct (scrape w paper st) as [[e|s1] st2]; [done|]. rewrite bind_run.
    destruct (scrape_all w rest st2) as [[e|ss1] st3] eqn:Hrest; [done|].
    intros [= <- <-]. simpl. f_equal. by eapply IH.
Qed.

Lemma assembled_in_document_order_witness :
  let first := {| scraped_title := "First"; scraped_abstract := "A1";
                  scraped_arxiv_id := "2401.00001";
                  scraped_hf_paper_url := "https://huggingface.co/papers/2401.00001" |} in
  let second := {| scraped_title := "Second"; scraped_abstract := "A2";
                   scraped_arxiv_id := "2401.00002";
                   scraped_hf_paper_url := "https://huggingface.co/papers/2401.00002" |} in
  let loc := {| papers := [make_paper first; make_paper second];
                seen_ids := {[ "2401.00002" ]} ∪ ({[ "2401.00001" ]} ∪ ∅) |} in
  let articles := [anchor "/papers/2401.00001"; anchor "/papers/2401.00002";
                   anchor "/papers/2401.00001"] in
  let st' := requesting "https://huggingface.co/papers/2401.00001"
               (requesting "https://huggingface.co/papers/2401.00002"
                  (requesting "https://huggingface.co/papers/2401.00001"
                     (listed three_articles None ∅))) in
  ∃ ss, scrape_all three_articles articles (listed three_articles None ∅) = (inr ss, st') ∧
        length ss = length articles ∧
        papers loc `sublist_of` (make_paper <$> omap (λ s, s) ss).
Proof.
  intros first second loc articles st'.
  apply (assembled_in_document_order three_articles articles
           (listed three_articles None ∅) st' loc).
  by vm_compute.
Defined.

(** ** The download tasks *)

Lemma app_inj_r (s s' t : string) : s +:+ t = s' +:+ t → s = s'.
Proof.
  intros Heq. apply (app_same_length s s' t t Heq).
  apply (f_equal String.length) in Heq. rewrite !length_app_str in Heq. lia.
Qed.

Lemma NoDup_fmap_eq {A B : Type} (f : A → B) (l : list A) (x y : A) :
  NoDup (f <$> l) → x ∈ l → y ∈ l → f x = f y → x = y.
Proof.
  induction l as [|z l IH]; [by intros _ ?%elem_of_nil|].
  rewrite fmap_cons, NoDup_cons. intros [Hz Hl] Hx Hy Hf.
  apply elem_of_cons in Hx as [->|Hx], Hy as [->|Hy]; auto.
  - destruct Hz. rewrite Hf. by apply list_elem_of_fmap_2.
  - destruct Hz. rewrite <-Hf. by apply list_elem_of_fmap_2.
Qed.

Lemma harvest_record_paths (w : World) (articles : list Article) (st st' : State)
    (loc : Locals) (record : Paper) :
  harvest w no_papers articles st = (inr loc, st') → record ∈ papers loc →
  pdf_path record = "temp_pdfs/" +:+ arxiv_id record +:+ ".pdf".
Proof.
  rewrite harvest_scrape_all.
  destruct (scrape_all w articles st) as [[e|ss] st1] eqn:Hss; [done|]. intros [= <- <-] Hin.
  apply keep_all_from in Hin as [Hin|(s & Hin & ->)]; [by apply elem_of_nil in Hin|].
  destruct (scrape_all_yields _ _ _ _ _ _ Hss Hin)
    as (paper & link & pre & d1 & d2 & post & _ & _ & Hfirst & Hid & _).
  apply (os_path_join_temp_pdfs w).
  exists d1, d2. destruct Hfirst as [(_ & ? & ? & ? & ?) _]. by split_and!.
Qed.

(** One download task is submitted per assembled record, in the order of
    the records, and no two tasks have the same document link or the same
    destination file. *)
Theorem one_task_per_record (w : World) (articles : list Article) (st st' : State)
    (loc : Locals) :
  harvest w no_papers articles st = (inr loc, st') →
  submitted (download_all w (papers loc) st').2 =
    submitted st' ++ ((λ paper, (arxiv_link paper, pdf_path paper)) <$> papers loc) ∧
  NoDup (arxiv_link <$> papers loc) ∧ NoDup (pdf_path <$> papers loc).
Proof.
  intros Hloop. destruct (harvest_distinct _ _ _ _ _ Hloop) as [Hids Hlinks].
  split_and!; [by rewrite download_all_run|done|].
  apply NoDup_fmap_2_strong; [|by eapply NoDup_fmap_1].
  intros x y Hx Hy Hpath. apply (NoDup_fmap_eq arxiv_id (papers loc)); try done.
  rewrite (harvest_record_paths _ _ _ _ _ _ Hloop Hx),
          (harvest_record_paths _ _ _ _ _ _ Hloop Hy) in Hpath.
  apply (inj (String.app "temp_pdfs/")) in Hpath. by apply app_inj_r in Hpath.
Qed.

Lemma one_task_per_record_witness :
  let first := {| scraped_title := "First"; scraped_abstract := "A1";
                  scraped_arxiv_id := "2401.00001";
                  scraped_hf_paper_url := "https://huggingface.co/papers/2401.00001" |} in
  let second := {| scraped_title := "Second"; scraped_abstract := "A2";
                   scraped_arxiv_id := "2401.00002";
                   scraped_hf_paper_url := "https://huggingface.co/papers/2401.00002" |} in
  let loc := {| papers := [make_paper first; make_paper second];
                seen_ids := {[ "2401.00002" ]} ∪ ({[ "2401.00001" ]} ∪ ∅) |} in
  let st' := requesting "https://huggingface.co/papers/2401.00001"
               (requesting "https://huggingface.co/papers/2401.00002"
                  (requesting "https://huggingface.co/papers/2401.00001"
                     (listed three_articles None ∅))) in
  submitted (download_all three_articles (papers loc) st').2 =
    submitted st' ++ ((λ paper, (arxiv_link paper, pdf_path paper)) <$> papers loc) ∧
  NoDup (arxiv_link <$> papers loc) ∧ NoDup (pdf_path <$> papers loc).
Proof.
  intros first second loc st'.
  apply (one_task_per_record three_articles
           [anchor "/papers/2401.00001"; anchor "/papers/2401.00002";
            anchor "/papers/2401.00001"] (listed three_articles None ∅)).
  by vm_compute.
Defined.

(** ** The order of completion *)

Lemma imap_ext_pointwise {A B : Type} (f g : nat → A → B) (l : list A) :
  (∀ n x, f n x = g n x) → imap f l = imap g l.
Proof.
  revert f g. induction l as [|x l IH]; intros f g Hfg; [done|].
  simpl. f_equal; [apply Hfg|]. apply IH. intros n y. apply Hfg.
Qed.

(** The order in which the futures complete has no bearing on the records
    that are left, whatever the records. *)
Theorem completion_order_is_irrelevant (w1 w2 : World) (papers : list Paper) (st : State) :
  (∀ n link, pdf_get w1 n link = pdf_get w2 n link) →
  (∀ n path, pdf_write w1 n path = pdf_write w2 n path) →
  as_completed w1 ≡ₚ as_completed w2 →
  download_all w1 papers st = download_all w2 papers st.
Proof.
  intros Hget Hwrite Hperm. rewrite !download_all_run. do 2 f_equal.
  rewrite !foldl_prune. apply list_filter_iff. intros paper.
  assert (imap (λ n paper, download_pdf w1 n (arxiv_link paper) (pdf_path paper)) papers =
          imap (λ n paper, download_pdf w2 n (arxiv_link paper) (pdf_path paper)) papers) as ->.
  { apply imap_ext_pointwise. intros n x. unfold download_pdf. by rewrite Hget, Hwrite. }
  by rewrite Hperm.
Qed.

Lemma completion_order_is_irrelevant_witness :
  let first := {| scraped_title := "First"; scraped_abstract := "A1";
                  scraped_arxiv_id := "2401.00001";
                  scraped_hf_paper_url := "https://huggingface.co/papers/2401.00001" |} in
  let second := {| scraped_title := "Second"; scraped_abstract := "A2";
                   scraped_arxiv_id := "2401.00002";
                   scraped_hf_paper_url := "https://huggingface.co/papers/2401.00002" |} in
  download_all three_articles [make_paper first; make_paper second] (initial ∅) =
  download_all three_articles_in_order [make_paper first; make_paper second] (initial ∅).
Proof.
  intros first second. apply completion_order_is_irrelevant.
  - reflexivity.
  - reflexivity.
  - apply perm_swap.
Defined.

(** ** What the run persists *)



(** A listing that is retrieved but holds no article is not a failure: the
    run makes both directories, submits no download and writes an empty
    list into the file of the day, replacing what the file held. *)
Theorem empty_listing_writes_empty_list (w : World) (date : option string)
    (fs : gmap string (list Paper)) (response : Response) :
  requests_get w 0 (hf_papers_url w date) = Returns response →
  status_code response = 200%Z →
  find_all_article (soup response) = [] →
  ∃ st, pull_hf_daily w date (initial fs) = (inr (), st) ∧
        requested st = [hf_papers_url w date] ∧
        made_dirs st = ["temp_pdfs"; "data"] ∧
        submitted st = [] ∧
        files st = <[ data_file_path (now_last w) := [] ]> fs.
Proof.
  intros Hget Hok Hnone. eexists.
  rewrite pull_hf_daily_run, Hget, Hok, Hnone. cbn [harvest negb Z.eqb Pos.eqb].
  rewrite ret_run, download_all_run. split; [reflexivity|]. simpl.
  split_and!; try done. f_equal.
  by induction (as_completed w).
Qed.

Lemma empty_listing_writes_empty_list_witness :
  ∃ st, pull_hf_daily empty_listing None (initial ∅) = (inr (), st) ∧
        requested st = [hf_papers_url empty_listing None] ∧
        made_dirs st = ["temp_pdfs"; "data"] ∧
        submitted st = [] ∧
        files st = <[ data_file_path (now_last empty_listing) := [] ]> ∅.
Proof.
  apply (empty_listing_writes_empty_list empty_listing None ∅ (listing_page [])); reflexivity.
Defined.

(** * Properties of [summarize_papers.py] *)

(** ** [str.replace] and [str.split] *)









Lemma split_from_skip (sep cur u r : string) :
  str.split_from sep (String.length u) cur (u +:+ r) = str.split_from sep 0 cur r.
Proof.
  induction u as [|c u IH]; [by rewrite app_empty_l|].
  rewrite app_String. simpl. apply IH.
Qed.

Lemma split_from_match (sep cur r : string) :
  sep ≠ "" →
  str.split_from sep 0 cur (sep +:+ r) = cur :: str.split_from sep 0 "" r.
Proof.
  destruct sep as [|c sep]; [done|]. intros _. rewrite app_String.
  cbn [str.split_from]. rewrite <-app_String, startswith_app.
  replace (String.length (String c sep) - 1) with (String.length sep) by (simpl; lia).
  by rewrite split_from_skip.
Qed.

Lemma split_from_other (sep cur : string) (c : ascii) (s : string) :
  re.startswith sep (String c s) = None →
  str.split_from sep 0 cur (String c s) = str.split_from sep 0 (cur +:+ String c "") s.
Proof. intros Hnone. cbn [str.split_from]. by rewrite Hnone. Qed.



(** ** Running the second script *)

Lemma sbind_run {A B : Type} (m : summarize_papers.M A) (f : A → summarize_papers.M B)
    (ss : summarize_papers.Session) :
  (m ≫= f) ss =
  match m ss with
  | (inl e, ss') => (inl e, ss')
  | (inr x, ss') => f x ss'
  end.
Proof. reflexivity. Qed.

Lemma sret_run {A : Type} (x : A) (ss : summarize_papers.Session) :
  (mret x : summarize_papers.M A) ss = (inr x, ss).
Proof. reflexivity. Qed.

Lemma decimal_digit_not_dash (n : Z) (s : string) :
  re.startswith "-" (String (decimal_digit n) s) = None.
Proof.
  unfold decimal_digit. assert (Z.to_nat (n mod 10) < 10)%nat as Hlt.
  { pose proof (Z.mod_pos_bound n 10). lia. }
  destruct (Z.to_nat (n mod 10)) as [|[|[|[|[|[|[|[|[|[|k]]]]]]]]]]; try done. lia.
Qed.

Lemma split_from_dash (cur r : string) :
  str.split_from "-" 0 cur (String "-" r) = cur :: str.split_from "-" 0 "" r.
Proof. by apply (split_from_match "-" cur r). Qed.

(** The three parts of a date. *)
Lemma split_date (d : datetime) :
  str.split "-" (strftime_Ymd d) =
  Some [four_digits (year d); two_digits (month d); two_digits (day d)].
Proof.
  unfold str.split, strftime_Ymd, four_digits, two_digits. f_equal.
  repeat first [rewrite app_String | rewrite app_empty_l].
  rewrite 4!split_from_other by apply decimal_digit_not_dash.
  rewrite split_from_dash.
  rewrite 2!split_from_other by apply decimal_digit_not_dash.
  rewrite split_from_dash.
  rewrite 2!split_from_other by apply decimal_digit_not_dash.
  reflexivity.
Qed.

Lemma part_date (d : datetime) (i : nat) (x : string) (ss : summarize_papers.Session) :
  [four_digits (year d); two_digits (month d); two_digits (day d)] !! i = Some x →
  summarize_papers.part "-" (strftime_Ymd d) i ss = (inr x, ss).
Proof.
  intros Hi. unfold summarize_papers.part. rewrite split_date. simpl.
  rewrite sbind_run, sret_run, Hi. done.
Qed.

Lemma split_from_head (sep cur s : string) (skip : nat) :
  ∃ first others, str.split_from sep skip cur s = first :: others.
Proof.
  revert skip cur. induction s as [|c s IH]; intros skip cur; [by eexists _, _|].
  simpl. destruct skip as [|k]; [|apply IH].
  destruct (re.startswith sep (String c s)); [by eexists _, _|apply IH].
Qed.

Lemma part_front (existing_content : string) (ss : summarize_papers.Session) :
  summarize_papers.part "## Papers for" existing_content 0 ss =
  (inr (front_content existing_content), ss).
Proof.
  unfold summarize_papers.part, front_content, str.split. simpl.
  rewrite sbind_run, sret_run.
  by destruct (split_from_head "## Papers for" "" existing_content 0) as (first & others & ->).
Qed.

Lemma archive_file_not_readme (d : datetime) : archive_file d ≠ "README.md".
Proof. unfold archive_file. by rewrite app_String. Qed.

Lemma archive_file_not_intro (d : datetime) : archive_file d ≠ "templates/README_intro.md".
Proof. unfold archive_file. by rewrite app_String. Qed.

(** [update_readme], stage by stage. *)
Lemma update_readme_run (g : summarize_papers.Gemini)
    (summaries : list summarize_papers.Summarized) (ss : summarize_papers.Session) :
  summarize_papers.update_readme g summaries ss =
  let d := summarize_papers.now_readme g in
  match summarize_papers.text_files ss !! "README.md",
        summarize_papers.text_files ss !! "templates/README_intro.md" with
  | Some existing_content, Some intro_content =>
      summarize_papers.write "README.md"
        (dated_intro d intro_content +:+
         summarize_papers.new_content (strftime_Ymd d) summaries +:+ str.LF +:+ str.LF +:+
         str.replace (front_content existing_content) "" existing_content)
        (archived g summaries ss)
  | _, _ => (inl IOError, archived g summaries ss)
  end.
Proof.
  unfold summarize_papers.update_readme.
  rewrite sbind_run, (part_date _ 2 (two_digits (day (summarize_papers.now_readme g)))) by done.
  rewrite sbind_run, (part_date _ 0 (four_digits (year (summarize_papers.now_readme g)))) by done.
  rewrite sbind_run, (part_date _ 1 (two_digits (month (summarize_papers.now_readme g)))) by done.
  rewrite sbind_run. unfold summarize_papers.makedirs at 1.
  rewrite sbind_run. unfold summarize_papers.write at 1. cbn [summarize_papers.made
    summarize_papers.text_files summarize_papers.json_files summarize_papers.pdf_files
    summarize_papers.calls summarize_papers.slept].
  fold (archive_dir (summarize_papers.now_readme g)).
  fold (archive_file (summarize_papers.now_readme g)).
  fold (archived g summaries ss).
  rewrite sbind_run. unfold summarize_papers.read at 1.
  replace (summarize_papers.text_files (archived g summaries ss) !! "README.md")
    with (summarize_papers.text_files ss !! "README.md")
    by (symmetry; apply lookup_insert_ne, archive_file_not_readme).
  destruct (summarize_papers.text_files ss !! "README.md") as [existing_content|]; [|done].
  rewrite sbind_run. unfold summarize_papers.read at 1.
  replace (summarize_papers.text_files (archived g summaries ss) !! "templates/README_intro.md")
    with (summarize_papers.text_files ss !! "templates/README_intro.md")
    by (symmetry; apply lookup_insert_ne, archive_file_not_intro).
  destruct (summarize_papers.text_files ss !! "templates/README_intro.md") as [intro_content|];
    [|done].
  rewrite sbind_run, part_front. reflexivity.
Qed.

(** ** The archive and the README *)







(** ** The prompt *)







(** ** The summarising loop *)

Lemma same_disk_refl (ss : summarize_papers.Session) : same_disk ss ss.
Proof. by (unfold same_disk; split_and!). Qed.

Lemma same_disk_trans (ss1 ss2 ss3 : summarize_papers.Session) :
  same_disk ss1 ss2 → same_disk ss2 ss3 → same_disk ss1 ss3.
Proof. intros (?&?&?&?) (?&?&?&?). unfold same_disk. split_and!; congruence. Qed.

(** One attempt, case by case. *)
Lemma summarize_paper_run (g : summarize_papers.Gemini)
    (title abstract pdf_path model_name : string) (ss : summarize_papers.Session) :
  summarize_papers.summarize_paper g title abstract pdf_path model_name ss =
  let ss1 := summarize_papers.calling (summarize_papers.Upload pdf_path ("paper_" +:+ title)) ss in
  match summarize_papers.upload_file g (length (summarize_papers.calls ss)) pdf_path
          ("paper_" +:+ title) with
  | Some e => (inl e, ss1)
  | None =>
      match summarize_papers.text_files ss !! "templates/prompt_template.md" with
      | None => (inl IOError, ss1)
      | Some prompt_template =>
          summarize_papers.generate g model_name pdf_path
            (str.replace "{abstract}" abstract (str.replace "{title}" title prompt_template)) ss1
      end
  end.
Proof.
  unfold summarize_papers.summarize_paper. rewrite sbind_run.
  unfold summarize_papers.upload at 1.
  destruct (summarize_papers.upload_file g _ _ _) as [e|]; [done|].
  rewrite sbind_run. unfold summarize_papers.read at 1. simpl.
  by destruct (summarize_papers.text_files ss !! _).
Qed.

(** One attempt makes at most two calls and touches nothing else. *)
Lemma summarize_paper_frame (g : summarize_papers.Gemini)
    (title abstract pdf_path model_name : string) (ss : summarize_papers.Session) :
  let out := summarize_papers.summarize_paper g title abstract pdf_path model_name ss in
  same_disk ss out.2 ∧ summarize_papers.slept out.2 = summarize_papers.slept ss ∧
  (length (summarize_papers.calls out.2) ≤ length (summarize_papers.calls ss) + 2)%nat.
Proof.
  rewrite summarize_paper_run. cbn zeta.
  destruct (summarize_papers.upload_file g _ _ _) as [e|]; [frame|].
  destruct (summarize_papers.text_files ss !! _) as [template|]; [|frame].
  unfold summarize_papers.generate.
  destruct (summarize_papers.generate_content g _ _ _ _); frame.
Qed.

(** One turn of the loop: a second attempt with the other model after a
    first that raised, and never an exception. *)
Lemma summarize_one_run (g : summarize_papers.Gemini)
    (summaries : list summarize_papers.Summarized) (paper : Paper)
    (ss : summarize_papers.Session) :
  ∃ summaries' ss',
    summarize_papers.summarize_one g summaries paper ss = (inr summaries', ss') ∧
    (summaries' = summaries ∨
     ∃ summary, summaries' = summaries ++ [ {| summarize_papers.paper := paper;
                                                summarize_papers.summary := summary |} ]) ∧
    same_disk ss ss' ∧
    (length (summarize_papers.calls ss') ≤ length (summarize_papers.calls ss) + 4)%nat ∧
    (summarize_papers.slept ss' + 60 * length summaries ≤
       summarize_papers.slept ss + 60 * length summaries')%nat ∧
    (summarize_papers.slept ss ≤ summarize_papers.slept ss')%nat.
Proof.
  unfold summarize_papers.summarize_one, summarize_papers.try_except. rewrite sbind_run.
  pose proof (summarize_paper_frame g (title paper) (abstract paper) (pdf_path paper)
                "gemini-2.5-pro" ss) as (Hd1 & Hs1 & Hc1).
  destruct (summarize_papers.summarize_paper g _ _ _ "gemini-2.5-pro" ss)
    as [[e1|s1] ss1]; simpl in *.
  - rewrite sbind_run.
    pose proof (summarize_paper_frame g (title paper) (abstract paper) (pdf_path paper)
                  "gemini-2.5-flash" ss1) as (Hd2 & Hs2 & Hc2).
    destruct (summarize_papers.summarize_paper g _ _ _ "gemini-2.5-flash" ss1)
      as [[e2|s2] ss2]; simpl in *.
    + eexists _, _. split; [done|].
      split_and!; [by left|by eapply same_disk_trans|lia..].
    + eexists _, _. split; [done|].
      split_and!; [right; by eexists|by eapply same_disk_trans| |rewrite length_app; simpl|];
        lia.
  - eexists _, _. split; [done|].
    destruct Hd1 as (?&?&?&?).
    split_and!; [right; by eexists|by (unfold same_disk; simpl; split_and!)|simpl; lia|rewrite length_app; simpl; lia|
                 simpl; lia].
Qed.

(** The loop from any list of summaries: it adds to them and returns. *)
Lemma summarize_all_run (g : summarize_papers.Gemini) (papers : list Paper)
    (summaries0 : list summarize_papers.Summarized) (ss : summarize_papers.Session) :
  ∃ more ss',
    summarize_papers.summarize_all g summaries0 papers ss = (inr (summaries0 ++ more), ss') ∧
    summarize_papers.paper <$> more `sublist_of` papers ∧
    same_disk ss ss' ∧
    (length (summarize_papers.calls ss') ≤
       length (summarize_papers.calls ss) + 4 * length papers)%nat ∧
    (summarize_papers.slept ss ≤ summarize_papers.slept ss' ≤
       summarize_papers.slept ss + 60 * length more)%nat.
Proof.
  revert summaries0 ss. induction papers as [|paper rest IH]; intros summaries0 ss.
  - exists [], ss. rewrite app_nil_r.
    split; [done|]. split; [done|]. split; [apply same_disk_refl|]. simpl. lia.
  - cbn [summarize_papers.summarize_all]. rewrite sbind_run.
    destruct (summarize_one_run g summaries0 paper ss)
      as (summaries1 & ss1 & -> & Hgrow & Hd1 & Hc1 & Hs1 & Hm1).
    destruct (IH summaries1 ss1) as (more & ss2 & -> & Hsub & Hd2 & Hc2 & Hs2).
    destruct Hgrow as [->|[summary ->]].
    + exists more, ss2.
      split; [done|]. split; [by apply sublist_cons|].
      split; [by eapply same_disk_trans|]. simpl. lia.
    + exists ({| summarize_papers.paper := paper; summarize_papers.summary := summary |} :: more),
        ss2.
      rewrite <-app_assoc. rewrite length_app in Hs1. simpl in *.
      split; [done|]. split; [by apply sublist_skip|].
      split; [by eapply same_disk_trans|]. lia.
Qed.


(** ** Cleaning up *)

Lemma clean_up_run (papers : list Paper) (ss : summarize_papers.Session) :
  ∃ ss', summarize_papers.clean_up papers ss = (inr (), ss') ∧
         summarize_papers.pdf_files ss' =
           summarize_papers.pdf_files ss ∖ list_to_set (pdf_path <$> papers) ∧
         summarize_papers.text_files ss' = summarize_papers.text_files ss ∧
         summarize_papers.json_files ss' = summarize_papers.json_files ss.
Proof.
  revert ss. induction papers as [|paper rest IH]; intros ss.
  - exists ss. split_and!; try done. simpl. set_solver.
  - cbn [summarize_papers.clean_up]. rewrite sbind_run.
    unfold summarize_papers.remove_if_exists at 1.
    destruct (IH {| summarize_papers.json_files := summarize_papers.json_files ss;
                    summarize_papers.text_files := summarize_papers.text_files ss;
                    summarize_papers.pdf_files :=
                      if bool_decide (pdf_path paper ∈ summarize_papers.pdf_files ss)
                      then summarize_papers.pdf_files ss ∖ {[ pdf_path paper ]}
                      else summarize_papers.pdf_files ss;
                    summarize_papers.made := summarize_papers.made ss;
                    summarize_papers.calls := summarize_papers.calls ss;
                    summarize_papers.slept := summarize_papers.slept ss |})
      as (ss' & -> & Hpdf & Htext & Hjson).
    exists ss'. split_and!; [done| |done..]. rewrite Hpdf. simpl.
    case_bool_decide; set_solver.
Qed.

Lemma update_readme_pdfs (g : summarize_papers.Gemini)
    (summaries : list summarize_papers.Summarized) (ss : summarize_papers.Session) :
  summarize_papers.pdf_files (summarize_papers.update_readme g summaries ss).2 =
  summarize_papers.pdf_files ss.
Proof. rewrite update_readme_run. by repeat case_match. Qed.

(** The PDFs are removed at the very end: when [main] returns, the files
    on disk are those it found less the destinations of all the records
    loaded, summarised or not; when [main] raises after loading, that is
    when [update_readme] raises, no PDF was removed. *)
Theorem pdfs_are_removed_last (g : summarize_papers.Gemini) (ss ss' : summarize_papers.Session)
    (papers : list Paper) (r : exn + unit) :
  summarize_papers.json_files ss !! data_file_path (summarize_papers.now_main g) = Some papers →
  summarize_papers.main g ss = (r, ss') →
  (r = inr () →
   summarize_papers.pdf_files ss' =
     summarize_papers.pdf_files ss ∖ list_to_set (pdf_path <$> papers)) ∧
  (r ≠ inr () → summarize_papers.pdf_files ss' = summarize_papers.pdf_files ss).
Proof.
  intros Hload. unfold summarize_papers.main. rewrite sbind_run.
  unfold summarize_papers.load. fold (data_file_path (summarize_papers.now_main g)).
  rewrite Hload. unfold summarize_papers.process. rewrite sbind_run.
  destruct (summarize_all_run g papers [] ss) as (summaries & ss1 & -> & _ & Hd1 & _).
  rewrite app_nil_l, sbind_run. pose proof (update_readme_pdfs g summaries ss1) as Hpdf.
  destruct (summarize_papers.update_readme g summaries ss1) as [[e|[]] ss2]; simpl in Hpdf.
  - intros [= <- <-]. destruct Hd1 as (_ & _ & Hp & _). split; [done|]. congruence.
  - destruct (clean_up_run papers ss2) as (ss3 & -> & Hp3 & _).
    intros [= <- <-]. destruct Hd1 as (_ & _ & Hp & _). split; [|done]. congruence.
Qed.

Lemma pdfs_are_removed_last_witness :
  summarize_papers.main helpful desk = (inr (), (summarize_papers.main helpful desk).2) ∧
  summarize_papers.pdf_files (summarize_papers.main helpful desk).2 =
    summarize_papers.pdf_files desk ∖ list_to_set (pdf_path <$> [first_paper]).
Proof.
  assert (summarize_papers.main helpful desk =
          (inr (), (summarize_papers.main helpful desk).2)) as Hrun by (by vm_compute).
  split; [exact Hrun|].
  exact (proj1 (pdfs_are_removed_last helpful desk (summarize_papers.main helpful desk).2
                  [first_paper] (inr ()) eq_refl Hrun) eq_refl).
Defined.

(** ** The entries of the archive *)

Lemma has_app (c : ascii) (s t : string) : has c (s +:+ t) = has c s || has c t.
Proof.
  induction s as [|c' s IH]; [done|]. rewrite app_String. cbn [has].
  by rewrite IH, orb_assoc.
Qed.

(** Replacing a character by text that does not hold it leaves none. *)
Lemma replace_char_gone (c : ascii) (new s : string) :
  has c new = false → has c (str.replace (String c "") new s) = false.
Proof.
  intros Hnew. unfold str.replace. induction s as [|c' s IH]; [done|].
  cbn [str.replace_from String.length Nat.sub].
  change (re.startswith (String c "") (String c' s))
    with (if Ascii.eqb c c' then Some s else None).
  destruct (Ascii.eqb_spec c c') as [->|Hne].
  - by rewrite has_app, Hnew, IH.
  - cbn [has]. by rewrite bool_decide_false, IH.
Qed.

(** Replacing a character that does not occur changes nothing. *)
Lemma replace_char_absent (c : ascii) (new s : string) :
  has c s = false → str.replace (String c "") new s = s.
Proof.
  unfold str.replace. induction s as [|c' s IH]; [done|].
  cbn [has]. intros [Hc Hs]%orb_false_iff. apply bool_decide_eq_false in Hc.
  cbn [str.replace_from].
  change (re.startswith (String c "") (String c' s))
    with (if Ascii.eqb c c' then Some s else None).
  destruct (Ascii.eqb_spec c c') as [->|Hne]; [done|]. by rewrite IH.
Qed.

Lemma replace_char_length (c c2 : ascii) (s : string) :
  String.length (str.replace (String c "") (String c2 "") s) = String.length s.
Proof.
  unfold str.replace. induction s as [|c' s IH]; [done|].
  cbn [str.replace_from String.length Nat.sub].
  change (re.startswith (String c "") (String c' s))
    with (if Ascii.eqb c c' then Some s else None).
  destruct (Ascii.eqb c c'); rewrite ?app_String, ?app_empty_l; simpl; by rewrite IH.
Qed.

(** The entry of a summary is a heading line and one line of summary,
    followed by an empty line: the summary is flattened, each of its line
    breaks becoming a space and nothing else changing, so that a summary
    without line break is written as it is. *)
Theorem summary_is_flattened (s : summarize_papers.Summarized) :
  ∃ flat,
    summarize_papers.entry s =
      "## [" +:+ title (summarize_papers.paper s) +:+ "](" +:+
      arxiv_link (summarize_papers.paper s) +:+ ")" +:+ str.LF +:+
      "summary:" +:+ flat +:+ str.LF +:+ str.LF ∧
    has "010" flat = false ∧
    String.length flat = String.length (summarize_papers.summary s) ∧
    (has "010" (summarize_papers.summary s) = false → flat = summarize_papers.summary s).
Proof.
  exists (str.replace str.LF " " (summarize_papers.summary s)).
  split; [done|]. split; [by apply replace_char_gone|].
  split; [apply replace_char_length|apply replace_char_absent].
Qed.

(** ** From the first script to the second *)

(** A run of the first script touches no file but that of its day. *)
Lemma pull_hf_daily_other_files (w : World) (date : option string)
    (fs : gmap string (list Paper)) (path : string) :
  path ≠ data_file_path (now_last w) →
  files (pull_hf_daily w date (initial fs)).2 !! path = fs !! path.
Proof.
  intros Hpath. rewrite pull_hf_daily_run.
  destruct (requests_get w 0 _) as [response|e]; [|done].
  destruct (negb _); [done|].
  pose proof (harvest_frame w no_papers (find_all_article (soup response)) (listed w date fs))
    as Hf.
  destruct (harvest w no_papers _ _) as [[e|loc] st]; simpl in Hf;
    destruct Hf as (_ & _ & Hfiles); [simpl; by rewrite Hfiles|].
  rewrite download_all_run. simpl. by rewrite lookup_insert_ne, Hfiles.
Qed.

(** The second script works on what the first script wrote only when both
    read the same day from the clock: started on the files left by a run
    of the first script, it loads the records of the file named after its
    own day; when that is not the day of the first run and no such file
    was there before, it raises at line 105, before any call to the API,
    and changes nothing. *)
Theorem second_script_reads_the_file_of_its_day (w : World) (date : option string)
    (fs : gmap string (list Paper)) (g : summarize_papers.Gemini)
    (ss : summarize_papers.Session) :
  summarize_papers.json_files ss = files (pull_hf_daily w date (initial fs)).2 →
  (∀ papers,
     files (pull_hf_daily w date (initial fs)).2 !! data_file_path (summarize_papers.now_main g)
       = Some papers →
     summarize_papers.main g ss = summarize_papers.process g papers ss) ∧
  (data_file_path (summarize_papers.now_main g) ≠ data_file_path (now_last w) →
   fs !! data_file_path (summarize_papers.now_main g) = None →
   summarize_papers.main g ss = (inl IOError, ss)).
Proof.
  intros Hfiles. unfold summarize_papers.main. rewrite sbind_run.
  unfold summarize_papers.load. fold (data_file_path (summarize_papers.now_main g)).
  rewrite Hfiles. split.
  - by intros papers ->.
  - intros Hday Hnone. by rewrite pull_hf_daily_other_files, Hnone.
Qed.

Lemma second_script_reads_the_file_of_its_day_witness :
  let st := (pull_hf_daily three_articles None (initial ∅)).2 in
  (* the same day: the one record whose PDF was downloaded *)
  (files st !! data_file_path jan_16 = Some [first_paper] ∧
   summarize_papers.main helpful (session_after st) =
     summarize_papers.process helpful [first_paper] (session_after st)) ∧
  (* the day after *)
  summarize_papers.main next_day (session_after st) = (inl IOError, session_after st).
Proof.
  intros st.
  assert (files st !! data_file_path jan_16 = Some [first_paper]) as Hfile by (by vm_compute).
  split.
  - split; [exact Hfile|].
    exact (proj1 (second_script_reads_the_file_of_its_day three_articles None ∅ helpful
                    (session_after st) eq_refl) [first_paper] Hfile).
  - apply (proj2 (second_script_reads_the_file_of_its_day three_articles None ∅ next_day
                    (session_after st) eq_refl)).
    + discriminate.
    + reflexivity.
Defined.
